(** * TF-IDF search script ([tfidf_search.py]): a shallow embedding

    The script is a thin driver around pandas, scikit-learn and numpy.  The
    functions of the script ([load_dataset], [create_tfidf_index], [search],
    [print_results], [main]) are embedded from their source; what they call in
    the libraries is either taken as a parameter with its documented contract
    ([argsort], [read_csv], the word splitter and the stop-word table) or
    modelled from the specification (the TF-IDF vectorizer and the cosine
    similarity), and marked as such.

    Python floats are idealised as real numbers: weights and scores live in
    [R].  Facts of order, sign and exact zero pass from [R] to the floats of
    the program; exact equalities and the bound 1 do not, and the module
    [Binary64] computes the same weights in IEEE 754 binary64 to show on
    concrete corpora what rounding does to them. *)

From Stdlib Require Import String Ascii ZArith Reals Lia Lra Bool Arith.
From Stdlib Require Import List Permutation Sorted.
From Stdlib Require Floats Uint63.
Import ListNotations.

Set Implicit Arguments.

(* ================================================================== *)
(** * Python and numpy primitives used by the script *)

Module Py.

(** [str.isspace] on the code points below 256: tab, line feed, vertical
    tab, form feed, carriage return, the four separators 0x1c to 0x1f, space,
    NEL (0x85) and the no-break space (0xa0). *)
Definition isspace (c : ascii) : bool :=
  let n := nat_of_ascii c in
  ((9 <=? n) && (n <=? 13)) || ((28 <=? n) && (n <=? 32))
  || (n =? 133) || (n =? 160).

Fixpoint lstrip (s : string) : string :=
  match s with
  | EmptyString => EmptyString
  | String c t => if isspace c then lstrip t else s
  end.

Fixpoint reverse (s : string) : string :=
  match s with
  | EmptyString => EmptyString
  | String c t => (reverse t ++ String c EmptyString)%string
  end.

Definition rstrip (s : string) : string := reverse (lstrip (reverse s)).

(** [s.strip()] *)
Definition strip (s : string) : string := rstrip (lstrip s).

(** Truth value of a [str]: the empty string is false. *)
Definition truthy (s : string) : bool :=
  match s with
  | EmptyString => false
  | String _ _ => true
  end.

(** [a[start:]], for any integer [start]: a negative [start] counts from the
    end, and both ends are clamped to the sequence. *)
Definition slice_from {A : Type} (start : Z) (a : list A) : list A :=
  let n := Z.of_nat (length a) in
  let lo := if (start <? 0)%Z then Z.max (n + start) 0 else Z.min start n in
  skipn (Z.to_nat lo) a.

(** [a[::-1]] *)
Definition reversed {A : Type} (a : list A) : list A := rev a.

(** [sep.join(parts)] *)
Fixpoint join (sep : string) (parts : list string) : string :=
  match parts with
  | [] => EmptyString
  | [p] => p
  | p :: rest => (p ++ sep ++ join sep rest)%string
  end.

(** [s[:n]] on a string, [n >= 0] *)
Fixpoint prefix (n : nat) (s : string) : string :=
  match n, s with
  | S k, String c t => String c (prefix k t)
  | _, _ => EmptyString
  end.

End Py.

Module Np.

(** Fancy indexing [a[idx]] with an array of non-negative indices: numpy
    raises [IndexError] as soon as one index is out of bounds. *)
Fixpoint take (a : list R) (idx : list nat) : option (list R) :=
  match idx with
  | [] => Some []
  | i :: rest =>
      match nth_error a i, take a rest with
      | Some x, Some xs => Some (x :: xs)
      | _, _ => None
      end
  end.

(** [m.flatten()] of a two-dimensional array, row-major. *)
Definition flatten (m : list (list R)) : list R := concat m.

(** The documented contract of [a.argsort()]: the result lists every index
    of [a] once, in an order that makes the values ascend.  numpy's default
    kind is not stable, so the contract says nothing on the order of equal
    values. *)
Definition ascending_at (a : list R) (i j : nat) : Prop :=
  (nth i a 0 <= nth j a 0)%R.

Definition is_argsort (a : list R) (p : list nat) : Prop :=
  Permutation p (seq 0 (length a)) /\ StronglySorted (ascending_at a) p.

End Np.

(* ================================================================== *)
(** * Generic stable insertion sort

    Used twice: for the vocabulary cap (terms by descending count, first-seen
    order on ties) and for [stable_argsort], the instance of [argsort] that
    keeps equal values in index order, as numpy's sort of a short array does. *)

Section InsertionSort.
Variable A : Type.
Variable leb : A -> A -> bool.

Fixpoint insert (x : A) (l : list A) : list A :=
  match l with
  | [] => [x]
  | y :: t => if leb x y then x :: y :: t else y :: insert x t
  end.

Fixpoint isort (l : list A) : list A :=
  match l with
  | [] => []
  | x :: t => insert x (isort t)
  end.

End InsertionSort.

Definition Rleb (x y : R) : bool := if Rle_dec x y then true else false.

Definition stable_argsort (a : list R) : list nat :=
  isort (fun i j => Rleb (nth i a 0%R) (nth j a 0%R)) (seq 0 (length a)).

Definition Rltb (x y : R) : bool := if Rlt_dec x y then true else false.

(** Another instance of [argsort]: equal values come out in descending
    index order. *)
Definition reversing_argsort (a : list R) : list nat :=
  isort (fun i j => Rltb (nth i a 0%R) (nth j a 0%R)) (seq 0 (length a)).

(* ================================================================== *)
(** * Effects: printed lines, library calls, [sys.exit] and exceptions *)

Inductive exn : Type :=
| FileNotFoundError (msg : string)
| EmptyDataError (msg : string)
| ValueError (msg : string)
| IndexError (msg : string)
| OtherException (msg : string).

(** [str(e)], what an f-string prints for [{e}]. *)
Definition str_exn (e : exn) : string :=
  match e with
  | FileNotFoundError m | EmptyDataError m | ValueError m
  | IndexError m | OtherException m => m
  end.

(** The library entry points the script calls. *)
Inductive libcall : Type :=
| pd_read_csv
| fit_transform_call
| transform_call
| cosine_similarity_call
| argsort_call.

(** The pieces of one printed line: literal text, an integer, a float
    printed with [:.4f]. *)
Inductive piece : Type :=
| Lit (s : string)
| Int (z : Z)
| Float4 (r : R).

Inductive event : Type :=
| Stdout (line : list piece)
| Stderr (line : list piece)
| Call (f : libcall).

Inductive result (A : Type) : Type :=
| Return (a : A)
| Exit (code : Z)
| Raised (e : exn).

Arguments Return {A} a.
Arguments Exit {A} code.
Arguments Raised {A} e.

(** A computation is the trace it leaves and how it ends. *)
Definition M (A : Type) : Type := (list event * result A)%type.

Definition ret {A : Type} (a : A) : M A := ([], Return a).

Definition bind {A B : Type} (m : M A) (k : A -> M B) : M B :=
  match m with
  | (t, Return a) => let (t', r) := k a in (t ++ t', r)
  | (t, Exit c) => (t, Exit c)
  | (t, Raised e) => (t, Raised e)
  end.

Notation "x <- m ;; k" := (bind m (fun x => k))
  (at level 61, m at next level, right associativity).
Notation "m ;;; k" := (bind m (fun _ => k))
  (at level 61, right associativity).

Definition print (line : list piece) : M unit := ([Stdout line], Return tt).
Definition eprint (line : list piece) : M unit := ([Stderr line], Return tt).
Definition sys_exit {A : Type} (code : Z) : M A := ([], Exit code).
Definition raise {A : Type} (e : exn) : M A := ([], Raised e).

(** A library call: recorded in the trace, and it returns or raises. *)
Definition call {A : Type} (f : libcall) (r : exn + A) : M A :=
  ([Call f],
   match r with
   | inl e => Raised e
   | inr a => Return a
   end).

(** [try: m except Exception as e: handler e].  [SystemExit] is not an
    [Exception], so an [Exit] passes through. *)
Definition try_except {A : Type} (m : M A) (handler : exn -> M A) : M A :=
  match m with
  | (t, Raised e) => let (t', r) := handler e in (t ++ t', r)
  | _ => m
  end.

Definition trace {A : Type} (m : M A) : list event := fst m.
Definition outcome {A : Type} (m : M A) : result A := snd m.

Notation "' pat <- m ;; k" := (bind m (fun x => match x with pat => k end))
  (at level 61, pat pattern, m at next level, right associativity).

(** [for x in l: body x] *)
Fixpoint for_each {A : Type} (l : list A) (body : A -> M unit) : M unit :=
  match l with
  | [] => ret tt
  | x :: rest => body x ;;; for_each rest body
  end.

(* ================================================================== *)
(** * Vectors *)

Definition vector : Type := list R.
Definition matrix : Type := list vector.

Definition dot (x y : vector) : R :=
  fold_right Rplus 0%R (map (fun p => (fst p * snd p)%R) (combine x y)).

Definition norm (x : vector) : R := sqrt (dot x x).

Definition nonneg (x : vector) : Prop := Forall (fun w => (0 <= w)%R) x.
Definition is_zero (x : vector) : Prop := Forall (fun w => w = 0%R) x.

(** Modelled from the spec: the L2 normalisation of scikit-learn's
    vectorizer is not under src/.  Spec 4.4: divide every weight by the
    Euclidean norm of the raw weight vector; a raw vector that is entirely
    zero stays the zero vector. *)
Definition l2_normalize (x : vector) : vector :=
  if Req_dec_T (norm x) 0 then x else map (fun w => (w / norm x)%R) x.

(** Modelled from the spec: scikit-learn's [cosine_similarity] is not under
    src/.  Spec 4.6 and glossary: the dot product of the two vectors brought
    to unit norm, a zero vector on either side giving 0. *)
Definition cosine (x y : vector) : R := dot (l2_normalize x) (l2_normalize y).

(** One row per document of [X], one column per row of [Y]. *)
Definition cosine_similarity (X Y : matrix) : matrix :=
  map (fun x => map (fun y => cosine x y) Y) X.

(* ================================================================== *)
(** * The vectorizer, [TfidfVectorizer(max_features=10000, min_df=1,
      ngram_range=(1, 2), stop_words='english')] *)

Definition max_features : Z := 10000.
Definition min_df : nat := 1.

(** Keeps the first occurrence of every element, in order. *)
Fixpoint first_seen (seen l : list string) : list string :=
  match l with
  | [] => []
  | t :: rest =>
      if existsb (String.eqb t) seen then first_seen seen rest
      else t :: first_seen (t :: seen) rest
  end.

Fixpoint bigrams (tokens : list string) : list string :=
  match tokens with
  | a :: ((b :: _) as rest) => (a ++ " " ++ b)%string :: bigrams rest
  | _ => []
  end.

(** Term frequency: occurrences of [t] in a tokenized document. *)
Definition term_frequency (t : string) (terms : list string) : nat :=
  count_occ string_dec terms t.

(** Document frequency: documents that contain [t] at least once. *)
Definition document_frequency (t : string) (docs : list (list string)) : nat :=
  length (filter (fun d => existsb (String.eqb t) d) docs).

(** Occurrences of [t] over the whole corpus. *)
Definition corpus_count (t : string) (docs : list (list string)) : nat :=
  list_sum (map (term_frequency t) docs).

(** Modelled from the spec: the weight model of scikit-learn's vectorizer is
    not under src/.  Spec 4.3: for a term with document frequency [df] in a
    corpus of [N] documents, [ln((1 + N) / (1 + df)) + 1]. *)
Definition idf_weight (N df : nat) : R :=
  (ln ((1 + INR N) / (1 + INR df)) + 1)%R.

(** The fitted vectorizer: the frozen vocabulary (a term's id is its
    position) and one idf weight per term. *)
Record Vectorizer : Type := {
  vocabulary_ : list string;
  idf_ : list R
}.

Section Vectorize.

(** The word splitter (lower-casing and the token pattern) and the English
    stop-word table live in scikit-learn; both are parameters. *)
Variable tokenize : string -> list string.
Variable stop_words : list string.

Definition is_stop_word (t : string) : bool := existsb (String.eqb t) stop_words.

(** Modelled from the spec: the analyzer of scikit-learn's vectorizer is not
    under src/.  Spec 4.1: drop the stop words, then emit every surviving
    word and every pair of adjacent surviving words. *)
Definition analyze (text : string) : list string :=
  let words := filter (fun t => negb (is_stop_word t)) (tokenize text) in
  words ++ bigrams words.

(** Modelled from the spec: vocabulary construction of scikit-learn's
    vectorizer is not under src/.  Spec 4.2: distinct terms with their
    document frequency and corpus count; terms under the minimum document
    frequency are dropped; over the cap only the terms with the highest
    corpus count stay, first-seen order deciding ties; ids follow first-seen
    order. *)
Definition fit_vocabulary (documents : list string) : list string :=
  let docs := map analyze documents in
  let seen := first_seen [] (concat docs) in
  let kept := filter (fun t => min_df <=? document_frequency t docs) seen in
  if (Z.of_nat (length kept) <=? max_features)%Z then kept
  else
    let ranked :=
      isort (fun t u => corpus_count u docs <=? corpus_count t docs) kept in
    let top := firstn (Z.to_nat max_features) ranked in
    filter (fun t => existsb (String.eqb t) top) kept.

Definition fit (documents : list string) : Vectorizer :=
  let docs := map analyze documents in
  let vocabulary := fit_vocabulary documents in
  {| vocabulary_ := vocabulary;
     idf_ := map (fun t => idf_weight (length documents) (document_frequency t docs))
                 vocabulary |}.

(** Modelled from the spec: the transform of scikit-learn's vectorizer is
    not under src/.  Spec 4.4: raw weight of a vocabulary term is its count
    in the text times its idf, terms outside the vocabulary are ignored, and
    the vector is L2-normalised. *)
Definition raw_weights (v : Vectorizer) (text : string) : vector :=
  map (fun p => (INR (term_frequency (fst p) (analyze text)) * snd p)%R)
      (combine (vocabulary_ v) (idf_ v)).

Definition transform (v : Vectorizer) (texts : list string) : matrix :=
  map (fun text => l2_normalize (raw_weights v text)) texts.

Definition empty_vocabulary_message : string :=
  "empty vocabulary; perhaps the documents only contain stop words".

(** Modelled from the spec: [fit_transform] of scikit-learn's vectorizer is
    not under src/.  Spec 4.2 and 4.5: building fails when zero terms
    survive (an empty corpus or all terms filtered out); otherwise the index
    holds one vector per document, in document order. *)
Definition fit_transform (documents : list string) : exn + (Vectorizer * matrix) :=
  match fit_vocabulary documents with
  | [] => inl (ValueError empty_vocabulary_message)
  | _ :: _ => let v := fit documents in inr (v, transform v documents)
  end.

End Vectorize.

(* ================================================================== *)
(** * The same weights in binary64

    numpy and scikit-learn hold weights and scores as IEEE 754 binary64
    numbers.  The definitions below repeat [dot], [norm], [l2_normalize],
    [cosine], [raw_weights] and [transform] with the operations of
    [PrimFloat], every operation rounding to nearest and the sums taken
    from left to right.  The idf weights are an argument: binary64 has no
    primitive logarithm, and the corpora this module is run on have every
    term in every document, where the weight is [ln 1 + 1], the float 1. *)

Module Binary64.

Definition vector : Type := list PrimFloat.float.
Definition matrix : Type := list vector.

Definition dot (x y : vector) : PrimFloat.float :=
  fold_left (fun acc p => PrimFloat.add acc (PrimFloat.mul (fst p) (snd p)))
            (combine x y) PrimFloat.zero.

Definition norm (x : vector) : PrimFloat.float := PrimFloat.sqrt (dot x x).

(** Modelled from the spec: the L2 normalisation of spec 4.4, as
    [l2_normalize] above, computed in binary64. *)
Definition l2_normalize (x : vector) : vector :=
  if PrimFloat.eqb (norm x) PrimFloat.zero then x
  else map (fun w => PrimFloat.div w (norm x)) x.

(** Modelled from the spec: the cosine similarity of spec 4.6, as [cosine]
    above, computed in binary64. *)
Definition cosine (x y : vector) : PrimFloat.float :=
  dot (l2_normalize x) (l2_normalize y).

Definition cosine_similarity (X Y : matrix) : matrix :=
  map (fun x => map (fun y => cosine x y) Y) X.

(** A term count as a float; exact below 2^53. *)
Definition of_count (n : nat) : PrimFloat.float :=
  PrimFloat.of_uint63 (Uint63.of_Z (Z.of_nat n)).

Section Vectorize.

Variable tokenize : string -> list string.
Variable stop_words : list string.

(** Modelled from the spec: the transform of spec 4.4, as [raw_weights]
    and [transform] above, computed in binary64 from a vocabulary and its
    idf weights. *)
Definition raw_weights (vocabulary : list string) (idf : vector) (text : string)
  : vector :=
  map (fun p =>
         PrimFloat.mul
           (of_count (term_frequency (fst p) (analyze tokenize stop_words text)))
           (snd p))
      (combine vocabulary idf).

Definition transform (vocabulary : list string) (idf : vector)
    (texts : list string) : matrix :=
  map (fun text => l2_normalize (raw_weights vocabulary idf text)) texts.

(** The similarity of every document to the query, lines 77 and 80 of
    [search], in binary64. *)
Definition similarities_of (vocabulary : list string) (idf : vector)
    (X : matrix) (q : string) : vector :=
  concat (cosine_similarity X (transform vocabulary idf [q])).

End Vectorize.

End Binary64.

(* ================================================================== *)
(** * The data frame read from the CSV file *)

(** A cell holds text or is missing (NaN). *)
Definition cell : Type := option string.

Record DataFrame : Type := {
  columns : list string;
  rows : list (list cell)
}.

Fixpoint index_of (c : string) (cols : list string) : nat :=
  match cols with
  | [] => 0
  | d :: rest => if String.eqb c d then 0 else S (index_of c rest)
  end.

(** [df.iloc[idx][col]] once the row is at hand. *)
Definition get_cell (df : DataFrame) (row : list cell) (col : string) : cell :=
  nth (index_of col (columns df)) row None.

(** [df[col]] *)
Definition column (df : DataFrame) (col : string) : list cell :=
  map (fun row => get_cell df row col) (rows df).

(** [df[col].isnull().sum()] *)
Definition null_count (cells : list cell) : nat :=
  length (filter (fun c => match c with None => true | Some _ => false end) cells).

Fixpoint set_nth (i : nat) (row : list cell) (c : cell) : list cell :=
  match i, row with
  | _, [] => []
  | O, _ :: rest => c :: rest
  | S k, x :: rest => x :: set_nth k rest c
  end.

(** [df[col] = df[col].fillna('')] *)
Definition fillna (df : DataFrame) (col : string) : DataFrame :=
  {| columns := columns df;
     rows := map (fun row =>
                    match get_cell df row col with
                    | None => set_nth (index_of col (columns df)) row (Some EmptyString)
                    | Some _ => row
                    end) (rows df) |}.

(** [str(x)] of a cell, as an f-string prints it. *)
Definition str_cell (c : cell) : string :=
  match c with
  | Some s => s
  | None => "nan"
  end.

(** The documents handed to the vectorizer: the text column. *)
Definition documents_of (df : DataFrame) (col : string) : list string :=
  map str_cell (column df col).

Definition newline : string := String (ascii_of_nat 10) EmptyString.

Fixpoint times (s : string) (n : nat) : string :=
  match n with
  | O => EmptyString
  | S k => (s ++ times s k)%string
  end.

(* ================================================================== *)
(** * The script *)

Record Args : Type := {
  csv_file : string;
  text_column : string;
  query : string;
  arg_top_k : Z
}.

Section Script.

Variable tokenize : string -> list string.
Variable stop_words : list string.

(** [ndarray.argsort()], and the file system as [pd.read_csv] sees it. *)
Variable argsort : list R -> list nat.
Variable read_csv : string -> exn + DataFrame.

(** ** [load_dataset], lines 29-54 *)
Definition load_dataset (csv_path text_col : string) : M DataFrame :=
  df <- try_except (call pd_read_csv (read_csv csv_path))
          (fun e =>
             match e with
             | FileNotFoundError _ =>
                 eprint [Lit "Error: File not found: "; Lit csv_path] ;;; sys_exit 1
             | EmptyDataError _ =>
                 eprint [Lit "Error: File is empty: "; Lit csv_path] ;;; sys_exit 1
             | _ =>
                 eprint [Lit "Error reading CSV: "; Lit (str_exn e)] ;;; sys_exit 1
             end) ;;
  if negb (existsb (String.eqb text_col) (columns df)) then
    eprint [Lit "Error: Column '"; Lit text_col; Lit "' not found in CSV"] ;;;
    eprint [Lit "Available columns: "; Lit (Py.join ", " (columns df))] ;;;
    sys_exit 1
  else
    let nulls := null_count (column df text_col) in
    if 0 <? nulls then
      eprint [Lit "Warning: "; Int (Z.of_nat nulls);
              Lit " rows have missing text, filling with empty string"] ;;;
      ret (fillna df text_col)
    else ret df.

(** ** [create_tfidf_index], lines 57-70 *)
Definition create_tfidf_index (documents : list string) : M (Vectorizer * matrix) :=
  try_except
    (call fit_transform_call (fit_transform tokenize stop_words documents))
    (fun e =>
       eprint [Lit "Error creating TF-IDF index: "; Lit (str_exn e)] ;;; sys_exit 1).

(** ** [search], lines 73-88 *)
Definition search (vectorizer : Vectorizer) (X : matrix) (q : string) (top_k : Z)
  : M (list nat * list R) :=
  try_except
    (query_vec <- call transform_call (inr (transform tokenize stop_words vectorizer [q])) ;;
     similarities <- call cosine_similarity_call
                       (inr (Np.flatten (cosine_similarity X query_vec))) ;;
     order <- call argsort_call (inr (argsort similarities)) ;;
     let top_indices := Py.reversed (Py.slice_from (- top_k) order) in
     match Np.take similarities top_indices with
     | Some scores => ret (top_indices, scores)
     | None => raise (IndexError "index out of bounds")
     end)
    (fun e => eprint [Lit "Error during search: "; Lit (str_exn e)] ;;; sys_exit 1).

(** ** [print_results], lines 91-109 *)
Definition print_results (df : DataFrame) (indices : list nat) (scores : list R)
    (text_col : string) : M unit :=
  print [Lit newline; Lit (times "=" 80)] ;;;
  print [Lit "Top "; Int (Z.of_nat (length indices)); Lit " Results"] ;;;
  print [Lit (times "=" 80); Lit newline] ;;;
  for_each (combine (seq 1 (length indices)) (combine indices scores))
    (fun item =>
       let '(rank, (idx, score)) := item in
       print [Lit "Rank "; Int (Z.of_nat rank); Lit " | Similarity: "; Float4 score] ;;;
       match nth_error (rows df) idx with
       | None => raise (IndexError "single positional indexer is out-of-bounds")
       | Some row =>
           for_each (columns df)
             (fun col =>
                if negb (String.eqb col text_col) then
                  print [Lit "  "; Lit col; Lit ": "; Lit (str_cell (get_cell df row col))]
                else ret tt) ;;;
           let text := str_cell (get_cell df row text_col) in
           let text_preview :=
             if 200 <? String.length text then (Py.prefix 200 text ++ "...")%string
             else text in
           print [Lit "  Text Preview: "; Lit text_preview] ;;;
           print [Lit (times "-" 80); Lit newline]
       end).

Definition no_results_line_1 : list piece :=
  [Lit newline;
   Lit "No relevant results found. Query words may not exist in the corpus."].
Definition no_results_line_2 : list piece :=
  [Lit "Try different search terms or check for typos."].

(** ** [main], lines 131-163: the run once [parse_args] (line 129) has
       returned [args].  Lines 113-129 only build the parser and call
       argparse, which on a malformed command line or on [-h] ends the run
       by itself, before line 131; that part of the library is not
       embedded. *)
Definition main (args : Args) : M unit :=
  if (arg_top_k args <? 1)%Z then
    eprint [Lit "Error: --top_k must be at least 1"] ;;; sys_exit 1
  else if negb (Py.truthy (Py.strip (query args))) then
    eprint [Lit "Error: Query cannot be empty"] ;;; sys_exit 1
  else
    print [Lit "Loading dataset from "; Lit (csv_file args); Lit "..."] ;;;
    df <- load_dataset (csv_file args) (text_column args) ;;
    print [Lit "Loaded "; Int (Z.of_nat (length (rows df))); Lit " documents"; Lit newline] ;;;
    print [Lit "Building TF-IDF index..."] ;;;
    ' (vectorizer, X) <- create_tfidf_index (documents_of df (text_column args)) ;;
    print [Lit "Vocabulary size: "; Int (Z.of_nat (length (vocabulary_ vectorizer)))] ;;;
    print [Lit "Feature matrix shape: ("; Int (Z.of_nat (length X)); Lit ", ";
           Int (Z.of_nat (length (vocabulary_ vectorizer))); Lit ")"; Lit newline] ;;;
    print [Lit "Searching for: '"; Lit (query args); Lit "'"] ;;;
    let top_k := Z.min (arg_top_k args) (Z.of_nat (length (rows df))) in
    ' (indices, scores) <- search vectorizer X (query args) top_k ;;
    match scores with
    | [] => raise (IndexError "index 0 is out of bounds for axis 0 with size 0")
    | first :: _ =>
        if Req_dec_T first 0 then
          print no_results_line_1 ;;; print no_results_line_2 ;;; sys_exit 0
        else print_results df indices scores (text_column args)
    end.

End Script.

(* ================================================================== *)
(** * Notions the properties are stated with *)

(** What the ranked output is claimed to be: scores descend, and of two
    entries with one score the earlier document comes first. *)
Definition score_descends (p q : nat * R) : Prop := (snd q <= snd p)%R.

Definition tie_by_position (p q : nat * R) : Prop := snd p = snd q -> fst p < fst q.

Definition ranked_with_ties (l : list (nat * R)) : Prop :=
  StronglySorted (fun p q => score_descends p q /\ tie_by_position p q) l.

(** The similarity of every document to the query, as [search] computes it
    in lines 77 and 80. *)
Definition similarities_of (tokenize : string -> list string)
    (stop_words : list string) (v : Vectorizer) (X : matrix) (q : string)
  : list R :=
  Np.flatten (cosine_similarity X (transform tokenize stop_words v [q])).

(** A run that never ends in [sys.exit]. *)
Definition never_exits {A : Type} (m : M A) : Prop := forall c, outcome m <> Exit c.

(** A run that never ends in an uncaught exception. *)
Definition never_raises {A : Type} (m : M A) : Prop := forall e, outcome m <> Raised e.

(* ================================================================== *)
(** * The error kinds of the specification

    The script raises no exception classes of its own: a failure is a line
    on stderr followed by [sys.exit(1)].  Each error kind of the
    specification stands for one such line: line 133 for an invalid
    [top_k], line 137 for a blank query, line 37 for a file without data,
    and line 69 carrying the vectorizer's empty-vocabulary message. *)

Inductive error_kind : Type :=
| EmptyCorpusError
| EmptyVocabularyError
| InvalidTopKError
| EmptyQueryError.

Definition error_kind_of (e : event) : option error_kind :=
  match e with
  | Stderr [Lit s] =>
      if (s =? "Error: --top_k must be at least 1")%string then Some InvalidTopKError
      else if (s =? "Error: Query cannot be empty")%string then Some EmptyQueryError
      else None
  | Stderr [Lit s; Lit m] =>
      if (s =? "Error: File is empty: ")%string then Some EmptyCorpusError
      else if ((s =? "Error creating TF-IDF index: ") && (m =? empty_vocabulary_message))%string
           then Some EmptyVocabularyError
      else None
  | _ => None
  end.

(** The error a run failed with: its last line, when it ended in
    [sys.exit(1)]. *)
Definition failure_of {A : Type} (m : M A) : option error_kind :=
  match outcome m, rev (trace m) with
  | Exit 1%Z, e :: _ => error_kind_of e
  | _, _ => None
  end.

Definition calls_library {A : Type} (m : M A) : Prop :=
  exists f, In (Call f) (trace m).

(** Every row of the frame has one cell per column, as pandas keeps it. *)
Definition rectangular (df : DataFrame) : Prop :=
  Forall (fun row => length row = length (columns df)) (rows df).

(** The text of a cell once missing values are filled with the empty string. *)
Definition filled_text (c : cell) : string :=
  match c with
  | Some s => s
  | None => EmptyString
  end.

(** A string of whitespace only (the empty string included). *)
Fixpoint all_space (s : string) : bool :=
  match s with
  | EmptyString => true
  | String c t => Py.isspace c && all_space t
  end.

(** The library calls of a trace, in order. *)
Definition calls_of (t : list event) : list libcall :=
  flat_map (fun e => match e with Call f => [f] | _ => [] end) t.

(** The order in which the script goes through the libraries. *)
Definition pipeline : list libcall :=
  [pd_read_csv; fit_transform_call; transform_call; cosine_similarity_call;
   argsort_call].

(** A run whose exit status is announced: status 1 right after an error
    line on stderr, status 0 right after the two no-relevant-results
    lines, and no other status. *)
Definition exit_announced {A : Type} (m : M A) : Prop :=
  forall c, outcome m = Exit c ->
    (c = 1%Z /\ exists before line, trace m = before ++ [Stderr line]) \/
    (c = 0%Z /\ exists before,
       trace m = before ++ [Stdout no_results_line_1; Stdout no_results_line_2]).

(** The lines of [print_results] that open a result and that show its
    text, recognised by their first piece. *)
Definition is_rank_line (e : event) : bool :=
  match e with
  | Stdout (Lit s :: _) => (s =? "Rank ")%string
  | _ => false
  end.

Definition is_preview_line (e : event) : bool :=
  match e with
  | Stdout (Lit s :: _) => (s =? "  Text Preview: ")%string
  | _ => false
  end.

Definition rank_line (rank : nat) (score : R) : event :=
  Stdout [Lit "Rank "; Int (Z.of_nat rank); Lit " | Similarity: "; Float4 score].

(** Lines 106-107: the first 200 characters and an ellipsis, or the whole
    text when it has at most 200. *)
Definition text_preview (text : string) : string :=
  if 200 <? String.length text then (Py.prefix 200 text ++ "...")%string else text.

Definition preview_line (df : DataFrame) (text_col : string) (idx : nat) : event :=
  Stdout [Lit "  Text Preview: ";
          Lit (text_preview (str_cell (get_cell df (nth idx (rows df) []) text_col)))].

Definition is_stdout (e : event) : Prop := exists line, e = Stdout line.
(** A run that returns, writes to stdout only, and of the lines [f] picks
    prints exactly [picked]. *)
Definition prints (f : event -> bool) (picked : list event) (m : M unit) : Prop :=
  outcome m = Return tt /\ Forall is_stdout (trace m) /\ filter f (trace m) = picked.

(** What a filter [f] keeps of the rank line and the preview line of one
    result. *)
Definition picked_of (df : DataFrame) (text_col : string) (f : event -> bool)
    (item : nat * (nat * R)) : list event :=
  filter f [rank_line (fst item) (snd (snd item));
            preview_line df text_col (fst (snd item))].

(* ================================================================== *)
(** * Concrete instances of the library parameters, for runs on data *)

Definition lower (c : ascii) : ascii :=
  let n := nat_of_ascii c in
  if (65 <=? n) && (n <=? 90) then ascii_of_nat (n + 32) else c.

Definition isalnum (c : ascii) : bool :=
  let n := nat_of_ascii c in
  ((48 <=? n) && (n <=? 57)) || ((65 <=? n) && (n <=? 90))
  || ((97 <=? n) && (n <=? 122)).

(** Spec 4.1 on ASCII text: lower-case, split on the characters that are
    not alphanumeric. *)
Fixpoint split_words (word text : string) : list string :=
  match text with
  | EmptyString => if Py.truthy word then [word] else []
  | String c rest =>
      if isalnum c then split_words (word ++ String (lower c) EmptyString) rest
      else if Py.truthy word then word :: split_words EmptyString rest
      else split_words EmptyString rest
  end.

Definition ascii_tokenize (text : string) : list string :=
  split_words EmptyString text.

Definition sample_stop_words : list string :=
  ["the"; "and"; "a"; "an"; "of"; "is"; "to"; "in"]%string.

(** A small file system: [pets.csv] holds two documents, [renamed.csv] the
    same texts under other column names, [header.csv] a header line and no
    row, and [blank.csv] nothing at all. *)
Definition pets : DataFrame :=
  {| columns := ["name"; "text"]%string;
     rows := [[Some "tom"; Some "cat"]; [Some "kit"; Some "cat"]]%string |}.

Definition pets_renamed : DataFrame :=
  {| columns := ["body"; "owner"; "id"]%string;
     rows := [[Some "cat"; Some "ann"; Some "7"];
              [Some "cat"; None; Some "8"]]%string |}.

Definition header_only : DataFrame :=
  {| columns := ["name"; "text"]%string; rows := [] |}.

Definition pets_fs (path : string) : exn + DataFrame :=
  if String.eqb path "pets.csv" then inr pets
  else if String.eqb path "renamed.csv" then inr pets_renamed
  else if String.eqb path "header.csv" then inr header_only
  else if String.eqb path "blank.csv" then
    inl (EmptyDataError "No columns to parse from file")
  else inl (FileNotFoundError "No such file or directory").

Definition pets_args (q : string) (k : Z) : Args :=
  {| csv_file := "pets.csv"; text_column := "text"; query := q; arg_top_k := k |}.

Definition header_args : Args :=
  {| csv_file := "header.csv"; text_column := "text"; query := "cat"; arg_top_k := 10 |}.

(** The index of the two documents of [pets.csv]. *)
Definition pets_vectorizer : Vectorizer :=
  {| vocabulary_ := ["cat"%string]; idf_ := [1%R] |}.

Definition pets_matrix : matrix := [[1%R]; [1%R]].

(* ================================================================== *)
(** * Slices, fancy indexing and sorting *)

Lemma slice_from_last_length (A : Type) (k : Z) (a : list A) :
  (1 <= k)%Z ->
  length (Py.slice_from (- k) a) = Z.to_nat (Z.min k (Z.of_nat (length a))).
Proof.
  intros Hk. unfold Py.slice_from.
  destruct (Z.ltb_spec (- k) 0) as [_ | H]; [| lia].
  rewrite length_skipn. lia.
Qed.

Lemma slice_from_suffix (A : Type) (s : Z) (a : list A) :
  exists front, a = front ++ Py.slice_from s a.
Proof.
  unfold Py.slice_from.
  match goal with |- context [skipn ?n a] => exists (firstn n a) end.
  symmetry. apply firstn_skipn.
Qed.

Lemma take_in_range (a : list R) (idx : list nat) :
  Forall (fun i => i < length a) idx ->
  Np.take a idx = Some (map (fun i => nth i a 0%R) idx).
Proof.
  induction 1 as [| i rest Hi _ IH]; simpl; [reflexivity |].
  rewrite IH.
  destruct (nth_error a i) eqn:E.
  - now rewrite (nth_error_nth _ _ _ E).
  - apply nth_error_None in E. lia.
Qed.

Lemma is_argsort_length (a : list R) (p : list nat) :
  Np.is_argsort a p -> length p = length a.
Proof.
  intros [Hp _]. rewrite (Permutation_length Hp). apply length_seq.
Qed.

Lemma is_argsort_range (a : list R) (p : list nat) :
  Np.is_argsort a p -> Forall (fun i => i < length a) p.
Proof.
  intros [Hp _]. apply Forall_forall. intros i Hi.
  apply (Permutation_in _ Hp) in Hi. apply in_seq in Hi. lia.
Qed.

Lemma StronglySorted_app_r (A : Type) (P : A -> A -> Prop) (l1 l2 : list A) :
  StronglySorted P (l1 ++ l2) -> StronglySorted P l2.
Proof.
  induction l1 as [| x l1 IH]; simpl; [trivial |].
  intros H. apply StronglySorted_inv in H. tauto.
Qed.

Lemma StronglySorted_snoc (A : Type) (P : A -> A -> Prop) (l : list A) (x : A) :
  StronglySorted P l -> Forall (fun y => P y x) l -> StronglySorted P (l ++ [x]).
Proof.
  induction 1 as [| y l Hs IH Hy]; simpl; intros Hall.
  - repeat constructor.
  - inversion Hall; subst. constructor; [auto |].
    apply Forall_app. split; [assumption | repeat constructor; assumption].
Qed.

Lemma StronglySorted_rev (A : Type) (P : A -> A -> Prop) (l : list A) :
  StronglySorted P l -> StronglySorted (fun x y => P y x) (rev l).
Proof.
  induction 1 as [| x l Hs IH Hx]; simpl; [constructor |].
  apply StronglySorted_snoc; [assumption |].
  apply Forall_forall. intros y Hy. apply in_rev in Hy.
  rewrite Forall_forall in Hx. auto.
Qed.

Lemma StronglySorted_map (A B : Type) (P : B -> B -> Prop) (f : A -> B) (l : list A) :
  StronglySorted (fun x y => P (f x) (f y)) l -> StronglySorted P (map f l).
Proof.
  induction 1 as [| x l Hs IH Hx]; simpl; constructor; [assumption |].
  apply Forall_map. assumption.
Qed.

(** The last index of an ascending order points at a maximum. *)
Lemma argsort_last_is_max (a : list R) (front : list nat) (i : nat) :
  Np.is_argsort a (front ++ [i]) ->
  i < length a /\ forall s, In s a -> (s <= nth i a 0)%R.
Proof.
  intros Hs. pose proof (is_argsort_range Hs) as Hr.
  destruct Hs as [Hp Hsorted].
  split.
  - rewrite Forall_forall in Hr. apply Hr. apply in_or_app. right. now left.
  - intros s Hin. destruct (In_nth _ _ 0%R Hin) as [j [Hj Hnth]]. subst s.
    assert (Hjin : In j (front ++ [i])).
    { apply Permutation_sym in Hp. apply (Permutation_in _ Hp). apply in_seq. lia. }
    apply in_app_or in Hjin. destruct Hjin as [Hf | [-> | []]]; [| apply Rle_refl].
    clear Hp Hr Hj Hin. induction front as [| x front IH]; [destruct Hf |].
    simpl in Hsorted. apply StronglySorted_inv in Hsorted. destruct Hsorted as [Hs' Hx].
    destruct Hf as [-> | Hf]; [| auto].
    rewrite Forall_forall in Hx. apply Hx. apply in_or_app. right. now left.
Qed.

Lemma outcome_bind (A B : Type) (m : M A) (k : A -> M B) (a : A) :
  outcome m = Return a -> outcome (bind m k) = outcome (k a).
Proof.
  destruct m as [t r]. simpl. intros ->. simpl. now destruct (k a).
Qed.

Lemma outcome_bind_exit (A B : Type) (m : M A) (k : A -> M B) (c : Z) :
  outcome m = Exit c -> outcome (bind m k) = Exit c.
Proof. destruct m as [t r]. simpl. now intros ->. Qed.

Lemma outcome_bind_raised (A B : Type) (m : M A) (k : A -> M B) (e : exn) :
  outcome m = Raised e -> outcome (bind m k) = Raised e.
Proof. destruct m as [t r]. simpl. now intros ->. Qed.

Lemma similarities_length tokenize stop_words v (X : matrix) q :
  length (similarities_of tokenize stop_words v X q) = length X.
Proof.
  unfold similarities_of, Np.flatten, cosine_similarity, transform. simpl.
  induction X as [| x X IH]; simpl; [reflexivity | now rewrite IH].
Qed.

Section Ranking.

Variable tokenize : string -> list string.
Variable stop_words : list string.
Variable argsort : list R -> list nat.
Hypothesis argsort_ok : forall a, Np.is_argsort a (argsort a).

Let sims := similarities_of tokenize stop_words.
Let run_search := search tokenize stop_words argsort.

Lemma top_indices_in_range (a : list R) (top_k : Z) :
  Forall (fun i => i < length a)
    (Py.reversed (Py.slice_from (- top_k) (argsort a))).
Proof.
  pose proof (is_argsort_range (argsort_ok a)) as Hr.
  destruct (slice_from_suffix (- top_k) (argsort a)) as [front Hfront].
  rewrite Hfront in Hr. apply Forall_app in Hr. destruct Hr as [_ Hr].
  unfold Py.reversed. apply Forall_forall. intros i Hi. apply in_rev in Hi.
  rewrite Forall_forall in Hr. auto.
Qed.

(** With an [argsort] that keeps its contract, [search] raises nothing:
    it returns the reversed tail of the order and the scores found there. *)
Lemma search_returns (v : Vectorizer) (X : matrix) (q : string) (top_k : Z) :
  run_search v X q top_k =
    ([Call transform_call; Call cosine_similarity_call; Call argsort_call],
     Return (Py.reversed (Py.slice_from (- top_k) (argsort (sims v X q))),
             map (fun i => nth i (sims v X q) 0%R)
                 (Py.reversed (Py.slice_from (- top_k) (argsort (sims v X q)))))).
Proof.
  unfold run_search, search, sims, similarities_of. simpl.
  rewrite take_in_range; [reflexivity | apply top_indices_in_range].
Qed.

Lemma top_indices_descend (a : list R) (top_k : Z) :
  StronglySorted (fun i j => (nth j a 0 <= nth i a 0)%R)
    (Py.reversed (Py.slice_from (- top_k) (argsort a))).
Proof.
  destruct (argsort_ok a) as [_ Hs].
  destruct (slice_from_suffix (- top_k) (argsort a)) as [front Hfront].
  rewrite Hfront in Hs. apply StronglySorted_app_r in Hs.
  unfold Py.reversed. now apply StronglySorted_rev in Hs.
Qed.

End Ranking.

(* ================================================================== *)
(** * Dot products, norms and normalisation *)

Local Open Scope R_scope.

Lemma dot_cons (a b : R) (x y : vector) :
  dot (a :: x) (b :: y) = a * b + dot x y.
Proof. reflexivity. Qed.

Lemma dot_nil_r (x : vector) : dot x [] = 0.
Proof. now destruct x. Qed.

Lemma dot_self_nonneg (x : vector) : 0 <= dot x x.
Proof.
  induction x as [| a x IH]; [apply Rle_refl |].
  rewrite dot_cons. nra.
Qed.

Lemma dot_nonneg (x y : vector) : nonneg x -> nonneg y -> 0 <= dot x y.
Proof.
  intros Hx. revert y. induction Hx as [| a x Ha _ IH]; intros y Hy.
  - apply Rle_refl.
  - destruct Hy as [| b y Hb Hy]; [apply Rle_refl |].
    rewrite dot_cons. specialize (IH y Hy). nra.
Qed.

Lemma cauchy_schwarz (x y : vector) :
  dot x y * dot x y <= dot x x * dot y y.
Proof.
  revert y. induction x as [| a x IH]; intros y.
  - unfold dot. simpl. lra.
  - destruct y as [| b y].
    + rewrite dot_nil_r. replace (dot [] []) with 0 by reflexivity. lra.
    + rewrite !dot_cons. specialize (IH y).
      pose proof (dot_self_nonneg x) as HA. pose proof (dot_self_nonneg y) as HB.
      set (S := dot x y) in *. set (P := dot x x) in *. set (Q := dot y y) in *.
      assert (Hmid : 2 * (a * b) * S <= a * a * Q + b * b * P).
      { destruct (Rle_lt_dec (2 * (a * b) * S) 0) as [Hneg | Hpos].
        - nra.
        - apply Rsqr_incr_0_var; [| nra]. unfold Rsqr.
          assert (H1 : 4 * (a * a) * (b * b) * (S * S) <= 4 * (a * a) * (b * b) * (P * Q)).
          { apply Rmult_le_compat_l; [nra | exact IH]. }
          pose proof (Rle_0_sqr (a * a * Q - b * b * P)) as H2. unfold Rsqr in H2.
          lra. }
      nra.
Qed.

Lemma dot_scale (c d : R) (x y : vector) :
  dot (map (fun w => w / c) x) (map (fun w => w / d) y) = dot x y / (c * d).
Proof.
  destruct (Req_dec_T c 0) as [-> | Hc].
  { unfold Rdiv. rewrite Rmult_0_l, Rinv_0, Rmult_0_r.
    revert y. induction x as [| a x IH]; intros [| b y]; try reflexivity.
    simpl map. rewrite dot_cons, IH. lra. }
  destruct (Req_dec_T d 0) as [-> | Hd].
  { unfold Rdiv. rewrite Rmult_0_r, Rinv_0, Rmult_0_r.
    revert y. induction x as [| a x IH]; intros [| b y]; try reflexivity.
    simpl map. rewrite dot_cons, IH. lra. }
  revert y. induction x as [| a x IH]; intros [| b y];
    try (unfold dot; simpl; field; auto).
  simpl map. rewrite !dot_cons, IH. field. auto.
Qed.

Lemma norm_nonneg (x : vector) : 0 <= norm x.
Proof. apply sqrt_pos. Qed.

Lemma norm_sqr (x : vector) : norm x * norm x = dot x x.
Proof. apply sqrt_sqrt, dot_self_nonneg. Qed.

Lemma norm_zero_iff (x : vector) : norm x = 0 <-> is_zero x.
Proof.
  split.
  - intros H. assert (Hd : dot x x = 0).
    { rewrite <- norm_sqr, H. lra. }
    clear H. induction x as [| a x IH]; [constructor |].
    rewrite dot_cons in Hd. pose proof (dot_self_nonneg x).
    constructor; [nra | apply IH; nra].
  - intros H. unfold norm. replace (dot x x) with 0; [apply sqrt_0 |].
    induction H as [| a x Ha _ IH]; [reflexivity |].
    rewrite dot_cons, <- IH, Ha. lra.
Qed.

Lemma l2_normalize_zero (x : vector) : is_zero x -> l2_normalize x = x.
Proof.
  intros H. unfold l2_normalize.
  destruct (Req_dec_T (norm x) 0) as [_ | Hn]; [reflexivity |].
  exfalso. apply Hn. now apply norm_zero_iff.
Qed.

Lemma l2_normalize_unit (x : vector) :
  ~ is_zero x -> norm (l2_normalize x) = 1.
Proof.
  intros H. unfold l2_normalize.
  destruct (Req_dec_T (norm x) 0) as [Hn | Hn].
  - exfalso. apply H. now apply norm_zero_iff.
  - unfold norm at 1. rewrite dot_scale, <- norm_sqr.
    replace (norm x * norm x / (norm x * norm x)) with 1 by (field; auto).
    apply sqrt_1.
Qed.

Lemma l2_normalize_zero_iff (x : vector) : is_zero (l2_normalize x) <-> is_zero x.
Proof.
  unfold l2_normalize.
  destruct (Req_dec_T (norm x) 0) as [Hn | Hn]; [reflexivity |].
  unfold is_zero. rewrite Forall_map. split; apply Forall_impl; intros w Hw.
  - apply (Rmult_eq_compat_r (norm x)) in Hw. unfold Rdiv in Hw.
    rewrite Rmult_assoc, Rinv_l, Rmult_1_r, Rmult_0_l in Hw; assumption.
  - rewrite Hw. unfold Rdiv. apply Rmult_0_l.
Qed.

Lemma l2_normalize_nonneg (x : vector) : nonneg x -> nonneg (l2_normalize x).
Proof.
  intros H. unfold l2_normalize.
  destruct (Req_dec_T (norm x) 0) as [Hn | Hn]; [assumption |].
  unfold nonneg. rewrite Forall_map. revert H. apply Forall_impl. intros w Hw.
  pose proof (norm_nonneg x). apply Rmult_le_pos; [assumption |].
  apply Rlt_le, Rinv_0_lt_compat. lra.
Qed.

(** A normalised vector has squared norm 0 or 1. *)
Lemma l2_normalize_dot_self (x : vector) :
  dot (l2_normalize x) (l2_normalize x) <= 1.
Proof.
  destruct (Req_dec_T (norm x) 0) as [Hn | Hn].
  - apply norm_zero_iff in Hn. rewrite (l2_normalize_zero Hn).
    apply norm_zero_iff in Hn. rewrite <- norm_sqr, Hn. lra.
  - rewrite <- norm_sqr, l2_normalize_unit; [lra |].
    intros Hz. apply Hn. now apply norm_zero_iff.
Qed.


Lemma dot_zero_r (x y : vector) : is_zero y -> dot x y = 0.
Proof.
  intros H. revert x. induction H as [| b y Hb _ IH]; intros [| a x]; try reflexivity.
  rewrite dot_cons, IH, Hb. lra.
Qed.

Lemma cosine_le_1 (x y : vector) : cosine x y <= 1.
Proof.
  unfold cosine. set (u := l2_normalize x). set (w := l2_normalize y).
  pose proof (cauchy_schwarz u w) as Hcs.
  pose proof (l2_normalize_dot_self x) as Hu. pose proof (l2_normalize_dot_self y) as Hw.
  pose proof (dot_self_nonneg u) as Hu0. pose proof (dot_self_nonneg w) as Hw0.
  fold u in Hu. fold w in Hw.
  destruct (Rle_lt_dec (dot u w) 1) as [H | H]; [assumption |].
  exfalso. assert (1 < dot u w * dot u w) by nra.
  assert (dot u u * dot w w <= 1) by nra. lra.
Qed.

Lemma cosine_nonneg (x y : vector) : nonneg x -> nonneg y -> 0 <= cosine x y.
Proof. intros Hx Hy. apply dot_nonneg; now apply l2_normalize_nonneg. Qed.


Lemma cosine_zero_r (x y : vector) : is_zero y -> cosine x y = 0.
Proof. intros H. unfold cosine. apply dot_zero_r. now apply l2_normalize_zero_iff. Qed.

Local Close Scope R_scope.

(* ================================================================== *)
(** * The vocabulary and the weights *)

Lemma existsb_eqb_In (t : string) (l : list string) :
  existsb (String.eqb t) l = true <-> In t l.
Proof.
  rewrite existsb_exists. split.
  - intros [u [Hin Heq]]. apply String.eqb_eq in Heq. now subst.
  - intros Hin. exists t. split; [assumption | apply String.eqb_refl].
Qed.

Lemma filter_nonempty (A : Type) (f : A -> bool) (x : A) (l : list A) :
  In x l -> f x = true -> filter f l <> [].
Proof.
  intros Hin Hf Hnil.
  assert (H : In x (filter f l)) by (apply filter_In; auto).
  rewrite Hnil in H. destruct H.
Qed.

Lemma insert_In (A : Type) (leb : A -> A -> bool) (x y : A) (l : list A) :
  In y (insert leb x l) <-> y = x \/ In y l.
Proof.
  induction l as [| z l IH]; simpl.
  - intuition.
  - destruct (leb x z); simpl; [intuition |]. rewrite IH. intuition.
Qed.

Lemma isort_In (A : Type) (leb : A -> A -> bool) (y : A) (l : list A) :
  In y (isort leb l) <-> In y l.
Proof.
  induction l as [| x l IH]; simpl; [reflexivity |].
  rewrite insert_In, IH. intuition.
Qed.

Lemma insert_Permutation (A : Type) (leb : A -> A -> bool) (x : A) (l : list A) :
  Permutation (insert leb x l) (x :: l).
Proof.
  induction l as [| z l IH]; simpl; [reflexivity |].
  destruct (leb x z); [reflexivity |].
  rewrite IH. apply perm_swap.
Qed.

Lemma isort_Permutation (A : Type) (leb : A -> A -> bool) (l : list A) :
  Permutation (isort leb l) l.
Proof.
  induction l as [| x l IH]; simpl; [reflexivity |].
  rewrite insert_Permutation. now constructor.
Qed.

Lemma first_seen_In (t : string) (l seen : list string) :
  In t (first_seen seen l) <-> In t l /\ ~ In t seen.
Proof.
  revert seen. induction l as [| u l IH]; intros seen; simpl; [tauto |].
  destruct (existsb (String.eqb u) seen) eqn:E.
  - apply existsb_eqb_In in E. rewrite IH. split.
    + tauto.
    + intros [[-> | H] Hn]; tauto.
  - assert (Hu : ~ In u seen).
    { intros H. apply existsb_eqb_In in H. congruence. }
    simpl. rewrite IH. simpl. split.
    + intros [-> | [H Hn]]; [tauto |]. split; [tauto |]. intros Hs. apply Hn. tauto.
    + intros [[-> | H] Hn]; [tauto |].
      destruct (string_dec u t) as [-> | Hne]; [tauto |]. right. split; [assumption |].
      intros [He | Hs]; tauto.
Qed.

Lemma document_frequency_le (t : string) (docs : list (list string)) :
  document_frequency t docs <= length docs.
Proof. apply filter_length_le. Qed.

Lemma document_frequency_pos (t : string) (docs : list (list string)) :
  In t (concat docs) -> 1 <= document_frequency t docs.
Proof.
  intros H. apply in_concat in H. destruct H as [d [Hd Ht]].
  unfold document_frequency.
  assert (Hin : In d (filter (fun d => existsb (String.eqb t) d) docs)).
  { apply filter_In. split; [assumption | now apply existsb_eqb_In]. }
  destruct (filter _ docs); [destruct Hin | simpl; lia].
Qed.

Section VectorizerFacts.

Variable tokenize : string -> list string.
Variable stop_words : list string.

Lemma fit_vocabulary_incl (documents : list string) (t : string) :
  In t (fit_vocabulary tokenize stop_words documents) ->
  In t (concat (map (analyze tokenize stop_words) documents)).
Proof.
  unfold fit_vocabulary.
  set (docs := map (analyze tokenize stop_words) documents).
  set (kept := filter _ (first_seen [] (concat docs))).
  assert (Hk : In t kept -> In t (concat docs)).
  { intros H. apply filter_In in H. destruct H as [H _].
    now apply first_seen_In in H. }
  destruct (Z.of_nat (length kept) <=? max_features)%Z; [assumption |].
  intros H. apply filter_In in H. tauto.
Qed.

(** The vocabulary is empty exactly when no document yields a term. *)
Lemma fit_vocabulary_empty_iff (documents : list string) :
  fit_vocabulary tokenize stop_words documents = [] <->
  concat (map (analyze tokenize stop_words) documents) = [].
Proof.
  split.
  - intros Hnil.
    destruct (concat (map (analyze tokenize stop_words) documents)) as [| t rest] eqn:E;
      [reflexivity | exfalso].
    revert Hnil. unfold fit_vocabulary.
    set (docs := map (analyze tokenize stop_words) documents) in *.
    set (kept := filter _ (first_seen [] (concat docs))).
    assert (Hk : In t kept).
    { apply filter_In. split.
      - apply first_seen_In. rewrite E. simpl. tauto.
      - apply Nat.leb_le. apply document_frequency_pos. rewrite E. now left. }
    destruct (Z.of_nat (length kept) <=? max_features)%Z.
    + intros H. rewrite H in Hk. destruct Hk.
    + set (ranked := isort _ kept).
      assert (Hr : exists h tl, ranked = h :: tl).
      { assert (Hin : In t ranked) by (apply isort_In; exact Hk).
        destruct ranked as [| h tl]; [destruct Hin | eauto]. }
      destruct Hr as [h [tl Hr]].
      assert (Hh : In h kept).
      { assert (Hin : In h ranked) by (rewrite Hr; now left).
        apply isort_In in Hin. exact Hin. }
      eapply filter_nonempty; [exact Hh |]. apply existsb_eqb_In.
      rewrite Hr. unfold max_features.
      replace (Z.to_nat 10000) with (S (Z.to_nat 9999)) by lia. now left.
  - intros E.
    destruct (fit_vocabulary tokenize stop_words documents) as [| t rest] eqn:Hv;
      [reflexivity |].
    assert (H : In t (concat (map (analyze tokenize stop_words) documents))).
    { apply fit_vocabulary_incl. rewrite Hv. now left. }
    rewrite E in H. destruct H.
Qed.

End VectorizerFacts.

Lemma idf_weight_ge_1 (N df : nat) : df <= N -> (1 <= idf_weight N df)%R.
Proof.
  intros H. unfold idf_weight.
  assert (Hdf : (0 <= INR df)%R) by apply pos_INR.
  assert (HN : (INR df <= INR N)%R) by now apply le_INR.
  assert (Hq : (1 <= (1 + INR N) / (1 + INR df))%R).
  { apply (Rmult_le_reg_r (1 + INR df)); [lra |].
    unfold Rdiv. rewrite Rmult_assoc, Rinv_l; lra. }
  assert (Hln : (ln 1 <= ln ((1 + INR N) / (1 + INR df)))%R).
  { destruct Hq as [Hlt | <-]; [| apply Rle_refl].
    apply Rlt_le, ln_increasing; lra. }
  rewrite ln_1 in Hln. lra.
Qed.

Section WeightFacts.

Variable tokenize : string -> list string.
Variable stop_words : list string.

Lemma fit_idf_positive (documents : list string) :
  Forall (fun w => (0 < w)%R) (idf_ (fit tokenize stop_words documents)).
Proof.
  unfold fit. simpl. apply Forall_map, Forall_forall. intros t _.
  apply Rlt_le_trans with 1%R; [lra |]. apply idf_weight_ge_1.
  rewrite <- (length_map (analyze tokenize stop_words) documents).
  apply document_frequency_le.
Qed.

Lemma raw_weights_nonneg (v : Vectorizer) (text : string) :
  nonneg (idf_ v) -> nonneg (raw_weights tokenize stop_words v text).
Proof.
  intros H. unfold raw_weights, nonneg. apply Forall_map, Forall_forall.
  intros [t w] Hin. simpl. apply in_combine_r in Hin.
  unfold nonneg in H. rewrite Forall_forall in H.
  apply Rmult_le_pos; [apply pos_INR | auto].
Qed.

(** A text none of whose terms is in the vocabulary has the zero vector. *)
Lemma raw_weights_out_of_vocabulary (v : Vectorizer) (text : string) :
  (forall t, In t (analyze tokenize stop_words text) -> ~ In t (vocabulary_ v)) ->
  is_zero (raw_weights tokenize stop_words v text).
Proof.
  intros H. unfold raw_weights, is_zero. apply Forall_map, Forall_forall.
  intros [t w] Hin. simpl. apply in_combine_l in Hin.
  unfold term_frequency.
  rewrite (proj1 (count_occ_not_In string_dec _ t)); [simpl; apply Rmult_0_l |].
  intros Ht. exact (H t Ht Hin).
Qed.

Lemma transform_nonneg (v : Vectorizer) (texts : list string) :
  nonneg (idf_ v) -> Forall nonneg (transform tokenize stop_words v texts).
Proof.
  intros H. unfold transform. apply Forall_map, Forall_forall. intros text _.
  apply l2_normalize_nonneg, raw_weights_nonneg, H.
Qed.

Lemma fit_transform_inr (documents : list string) (v : Vectorizer) (X : matrix) :
  fit_transform tokenize stop_words documents = inr (v, X) ->
  fit_vocabulary tokenize stop_words documents <> [] /\
  v = fit tokenize stop_words documents /\
  X = transform tokenize stop_words v documents.
Proof.
  unfold fit_transform.
  destruct (fit_vocabulary tokenize stop_words documents) as [| t rest] eqn:E;
    [discriminate |].
  intros H. injection H as <- <-. repeat split. discriminate.
Qed.

Lemma create_tfidf_index_inr (documents : list string) (v : Vectorizer) (X : matrix) :
  outcome (create_tfidf_index tokenize stop_words documents) = Return (v, X) ->
  fit_transform tokenize stop_words documents = inr (v, X).
Proof.
  unfold create_tfidf_index, call.
  destruct (fit_transform tokenize stop_words documents) as [e | [v' X']]; simpl.
  - discriminate.
  - intros H. now injection H as -> ->.
Qed.

Lemma nonneg_of_positive (x : vector) : Forall (fun w => (0 < w)%R) x -> nonneg x.
Proof. apply Forall_impl. intros w. apply Rlt_le. Qed.

(** All similarities are cosines of non-negative vectors once the index
    comes out of [create_tfidf_index]. *)
Lemma similarities_spec (v : Vectorizer) (X : matrix) (q : string) :
  similarities_of tokenize stop_words v X q =
  map (fun x => cosine x (l2_normalize (raw_weights tokenize stop_words v q))) X.
Proof.
  unfold similarities_of, Np.flatten, cosine_similarity, transform. simpl.
  induction X as [| x X IH]; simpl; [reflexivity | now rewrite IH].
Qed.

Lemma similarities_in_unit_interval (documents : list string) (v : Vectorizer)
    (X : matrix) (q : string) :
  outcome (create_tfidf_index tokenize stop_words documents) = Return (v, X) ->
  Forall (fun s => (0 <= s <= 1)%R) (similarities_of tokenize stop_words v X q).
Proof.
  intros H. apply create_tfidf_index_inr, fit_transform_inr in H.
  destruct H as [_ [Hv HX]].
  assert (Hidf : nonneg (idf_ v)).
  { rewrite Hv. apply nonneg_of_positive, fit_idf_positive. }
  rewrite similarities_spec. apply Forall_map, Forall_forall. intros x Hx. split.
  - apply cosine_nonneg.
    + pose proof (transform_nonneg v documents Hidf) as Hn. rewrite <- HX in Hn.
      rewrite Forall_forall in Hn. auto.
    + apply l2_normalize_nonneg, raw_weights_nonneg, Hidf.
  - apply cosine_le_1.
Qed.

End WeightFacts.

(* ================================================================== *)
(** * [stable_argsort] keeps the contract of [argsort] *)

Section InsertionSortSorted.

Variable A : Type.
Variable leb : A -> A -> bool.
Variable P : A -> A -> Prop.
Hypothesis leb_true : forall x y, leb x y = true -> P x y.
Hypothesis leb_false : forall x y, leb x y = false -> P y x.
Hypothesis P_trans : forall x y z, P x y -> P y z -> P x z.

Lemma insert_sorted (x : A) (l : list A) :
  StronglySorted P l -> StronglySorted P (insert leb x l).
Proof.
  induction 1 as [| y l Hs IH Hy]; simpl.
  - repeat constructor.
  - destruct (leb x y) eqn:E.
    + constructor; [now constructor |].
      constructor; [now apply leb_true |].
      apply leb_true in E. revert Hy. apply Forall_impl. intros z. now apply P_trans.
    + constructor; [assumption |].
      apply Forall_forall. intros z Hz. apply insert_In in Hz.
      destruct Hz as [-> | Hz]; [now apply leb_false |].
      rewrite Forall_forall in Hy. auto.
Qed.

Lemma isort_sorted (l : list A) : StronglySorted P (isort leb l).
Proof.
  induction l as [| x l IH]; simpl; [constructor | now apply insert_sorted].
Qed.

End InsertionSortSorted.

Lemma stable_argsort_ok (a : list R) : Np.is_argsort a (stable_argsort a).
Proof.
  split.
  - apply isort_Permutation.
  - apply isort_sorted; unfold Np.ascending_at, Rleb.
    + intros i j. destruct (Rle_dec (nth i a 0%R) (nth j a 0%R)); [auto | discriminate].
    + intros i j. destruct (Rle_dec (nth i a 0%R) (nth j a 0%R)); [discriminate |].
      intros _. apply Rlt_le. now apply Rnot_le_lt.
    + intros i j k. apply Rle_trans.
Qed.

Lemma reversing_argsort_ok (a : list R) : Np.is_argsort a (reversing_argsort a).
Proof.
  split.
  - apply isort_Permutation.
  - apply isort_sorted; unfold Np.ascending_at, Rltb.
    + intros i j. destruct (Rlt_dec (nth i a 0%R) (nth j a 0%R)); [| discriminate].
      intros _. now apply Rlt_le.
    + intros i j. destruct (Rlt_dec (nth i a 0%R) (nth j a 0%R)); [discriminate |].
      intros _. now apply Rnot_lt_le.
    + intros i j k. apply Rle_trans.
Qed.

Lemma Rltb_irrefl (x : R) : Rltb x x = false.
Proof.
  unfold Rltb. destruct (Rlt_dec x x) as [H | _]; [| reflexivity].
  exfalso. exact (Rlt_irrefl x H).
Qed.

Lemma Rleb_refl_true (x : R) : Rleb x x = true.
Proof. unfold Rleb. destruct (Rle_dec x x) as [_ | H]; [reflexivity |]. exfalso. apply H, Rle_refl. Qed.

(* ================================================================== *)
(** * How a computation ends *)

Lemma never_exits_bind (A B : Type) (m : M A) (k : A -> M B) :
  never_exits m -> (forall a, never_exits (k a)) -> never_exits (bind m k).
Proof.
  intros Hm Hk c. destruct m as [t [a | c' | e]]; simpl.
  - specialize (Hk a c). destruct (k a) as [t' r]. exact Hk.
  - exfalso. now apply (Hm c').
  - discriminate.
Qed.

Lemma never_exits_print (line : list piece) : never_exits (print line).
Proof. intros c. discriminate. Qed.

Lemma never_exits_ret (A : Type) (a : A) : never_exits (ret a).
Proof. intros c. discriminate. Qed.

Lemma never_exits_raise (A : Type) (e : exn) : never_exits (@raise A e).
Proof. intros c. discriminate. Qed.

Lemma never_exits_for_each (A : Type) (l : list A) (body : A -> M unit) :
  (forall x, never_exits (body x)) -> never_exits (for_each l body).
Proof.
  intros H. induction l as [| x l IH]; simpl.
  - apply never_exits_ret.
  - apply never_exits_bind; auto.
Qed.

Lemma print_results_never_exits (df : DataFrame) (indices : list nat)
    (scores : list R) (text_col : string) :
  never_exits (print_results df indices scores text_col).
Proof.
  unfold print_results.
  repeat (apply never_exits_bind; [apply never_exits_print | intros _]).
  apply never_exits_for_each. intros [rank [idx score]].
  apply never_exits_bind; [apply never_exits_print | intros _].
  destruct (nth_error (rows df) idx) as [row |]; [| apply never_exits_raise].
  apply never_exits_bind.
  - apply never_exits_for_each. intros col.
    destruct (negb (col =? text_col)%string);
      [apply never_exits_print | apply never_exits_ret].
  - intros _. apply never_exits_bind; [apply never_exits_print | intros _].
    apply never_exits_print.
Qed.

(** The reversed tail of a non-empty order starts with the order's last
    index. *)
Lemma reversed_tail_head (k : Z) (order : list nat) :
  (1 <= k)%Z -> order <> [] ->
  exists front i rest,
    order = front ++ [i] /\
    Py.reversed (Py.slice_from (- k) order) = i :: rest.
Proof.
  intros Hk Hne.
  destruct (slice_from_suffix (- k) order) as [front Hfront].
  assert (Hlen : length (Py.slice_from (- k) order) <> 0).
  { rewrite slice_from_last_length by assumption.
    destruct order; [congruence | simpl length; lia]. }
  destruct (exists_last (l := Py.slice_from (- k) order)) as [mid [i Hmid]].
  { intros E. rewrite E in Hlen. now apply Hlen. }
  exists (front ++ mid), i, (rev mid). split.
  - rewrite <- app_assoc, <- Hmid. exact Hfront.
  - unfold Py.reversed. rewrite Hmid, rev_app_distr. reflexivity.
Qed.

Lemma combine_map_r (A B : Type) (f : A -> B) (l : list A) :
  combine l (map f l) = map (fun x => (x, f x)) l.
Proof. induction l as [| x l IH]; simpl; [reflexivity | now rewrite IH]. Qed.

Lemma transform_length tokenize stop_words (v : Vectorizer) (texts : list string) :
  length (transform tokenize stop_words v texts) = length texts.
Proof. apply length_map. Qed.

Lemma create_tfidf_index_ok tokenize stop_words (documents : list string) :
  fit_vocabulary tokenize stop_words documents <> [] ->
  create_tfidf_index tokenize stop_words documents =
    ([Call fit_transform_call],
     Return (fit tokenize stop_words documents,
             transform tokenize stop_words (fit tokenize stop_words documents) documents)).
Proof.
  intros H. unfold create_tfidf_index, fit_transform.
  destruct (fit_vocabulary tokenize stop_words documents); [congruence | reflexivity].
Qed.

Lemma create_tfidf_index_empty tokenize stop_words (documents : list string) :
  fit_vocabulary tokenize stop_words documents = [] ->
  create_tfidf_index tokenize stop_words documents =
    ([Call fit_transform_call;
      Stderr [Lit "Error creating TF-IDF index: "; Lit empty_vocabulary_message]],
     Exit 1).
Proof.
  intros H. unfold create_tfidf_index, fit_transform. rewrite H. reflexivity.
Qed.


(* ================================================================== *)
(** * [main] once its input is accepted *)

Section MainFlow.

Variable tokenize : string -> list string.
Variable stop_words : list string.
Variable argsort : list R -> list nat.
Variable read_csv : string -> exn + DataFrame.
Hypothesis argsort_ok : forall a, Np.is_argsort a (argsort a).

(** What [main] hands to [search] in line 154 and how it ends on the scores
    that come back (lines 157-163). *)
Lemma main_outcome (args : Args) (df : DataFrame) (v : Vectorizer) (X : matrix) :
  (1 <= arg_top_k args)%Z ->
  Py.truthy (Py.strip (query args)) = true ->
  outcome (load_dataset read_csv (csv_file args) (text_column args)) = Return df ->
  outcome (create_tfidf_index tokenize stop_words (documents_of df (text_column args)))
    = Return (v, X) ->
  forall indices scores,
  outcome (search tokenize stop_words argsort v X (query args)
             (Z.min (arg_top_k args) (Z.of_nat (length (rows df)))))
    = Return (indices, scores) ->
  outcome (main tokenize stop_words argsort read_csv args) =
    match scores with
    | [] => Raised (IndexError "index 0 is out of bounds for axis 0 with size 0")
    | first :: _ =>
        if Req_dec_T first 0 then Exit 0
        else outcome (print_results df indices scores (text_column args))
    end.
Proof.
  intros Hk Hq Hload Hindex indices scores Hsearch. unfold main.
  destruct (Z.ltb_spec (arg_top_k args) 1) as [Hlt | _]; [lia |].
  rewrite Hq. simpl negb. cbv iota.
  rewrite outcome_bind with (a := tt) by reflexivity.
  rewrite outcome_bind with (a := df) by exact Hload.
  rewrite outcome_bind with (a := tt) by reflexivity.
  rewrite outcome_bind with (a := tt) by reflexivity.
  rewrite outcome_bind with (a := (v, X)) by exact Hindex.
  rewrite outcome_bind with (a := tt) by reflexivity.
  rewrite outcome_bind with (a := tt) by reflexivity.
  rewrite outcome_bind with (a := tt) by reflexivity.
  rewrite outcome_bind with (a := (indices, scores)) by exact Hsearch.
  destruct scores as [| first rest]; [reflexivity |].
  destruct (Req_dec_T first 0); reflexivity.
Qed.

End MainFlow.

(* ================================================================== *)
(** * Properties of the ranking *)

Section RankingClaims.

Variable tokenize : string -> list string.
Variable stop_words : list string.
Variable argsort : list R -> list nat.
Variable read_csv : string -> exn + DataFrame.
Hypothesis argsort_ok : forall a, Np.is_argsort a (argsort a).

(** C1, as the code has it: for every index, query and [top_k], [search]
    returns positions and scores such that each score is the similarity of
    the document at its position and the (position, score) pairs are sorted
    by score descending.  Entries with equal scores come in the reverse of
    the order in which [argsort] lists them: the returned positions, read
    backwards, are a tail of the [argsort] order. *)
Theorem search_sorted_by_score_descending (v : Vectorizer) (X : matrix)
    (q : string) (top_k : Z) :
  exists indices scores,
    outcome (search tokenize stop_words argsort v X q top_k) = Return (indices, scores) /\
    scores = map (fun i => nth i (similarities_of tokenize stop_words v X q) 0%R) indices /\
    StronglySorted score_descends (combine indices scores) /\
    exists front,
      argsort (similarities_of tokenize stop_words v X q) = front ++ rev indices.
Proof.
  eexists. eexists. split; [| split; [| split]].
  - unfold outcome. rewrite (search_returns tokenize stop_words argsort argsort_ok). reflexivity.
  - reflexivity.
  - rewrite combine_map_r. apply StronglySorted_map. unfold score_descends. simpl.
    apply (top_indices_descend argsort argsort_ok).
  - unfold Py.reversed. rewrite rev_involutive. apply slice_from_suffix.
Qed.

(** C2: for an index built from a corpus, every query and every
    [top_k >= 1], [search] returns exactly [min(top_k, documentCount)]
    positions and as many scores; so it does when [top_k] is first clamped
    to the number of documents, as [main] does in line 153. *)
Theorem search_length_is_min_top_k_document_count (documents : list string)
    (v : Vectorizer) (X : matrix) (q : string) (top_k : Z) :
  outcome (create_tfidf_index tokenize stop_words documents) = Return (v, X) ->
  (1 <= top_k)%Z ->
  (exists indices scores,
     outcome (search tokenize stop_words argsort v X q top_k) = Return (indices, scores) /\
     Z.of_nat (length indices) = Z.min top_k (Z.of_nat (length documents)) /\
     length scores = length indices) /\
  (exists indices scores,
     outcome (search tokenize stop_words argsort v X q
                (Z.min top_k (Z.of_nat (length documents)))) = Return (indices, scores) /\
     Z.of_nat (length indices) = Z.min top_k (Z.of_nat (length documents)) /\
     length scores = length indices).
Proof.
  intros Hindex Hk.
  apply create_tfidf_index_inr, fit_transform_inr in Hindex.
  destruct Hindex as [Hvoc [_ HX]].
  assert (Hdocs : length documents <> 0).
  { intros Hz. apply Hvoc. apply fit_vocabulary_empty_iff.
    destruct documents; [reflexivity | discriminate]. }
  assert (Hlen : forall k, (1 <= k)%Z ->
            Z.of_nat (length (Py.reversed (Py.slice_from (- k)
                        (argsort (similarities_of tokenize stop_words v X q)))))
            = Z.min k (Z.of_nat (length documents))).
  { intros k Hk1. unfold Py.reversed.
    rewrite length_rev, slice_from_last_length by assumption.
    rewrite (is_argsort_length (argsort_ok _)), similarities_length.
    rewrite HX, transform_length. lia. }
  split.
  - eexists. eexists. split; [| split].
    + unfold outcome.
      rewrite (search_returns tokenize stop_words argsort argsort_ok). reflexivity.
    + now apply Hlen.
    + apply length_map.
  - eexists. eexists. split; [| split].
    + unfold outcome.
      rewrite (search_returns tokenize stop_words argsort argsort_ok). reflexivity.
    + rewrite Hlen by lia. lia.
    + apply length_map.
Qed.

(** C10: when [main] has accepted its arguments, loaded the data frame and
    built the index, [search] returns a first score, that score is the
    similarity of some document and no document has a higher one, and
    [main] leaves through the no-relevant-results branch ([sys.exit(0)],
    line 160) exactly when every document's similarity to the query is
    zero. *)
Theorem first_score_is_maximum_similarity (args : Args) (df : DataFrame)
    (v : Vectorizer) (X : matrix) :
  (1 <= arg_top_k args)%Z ->
  Py.truthy (Py.strip (query args)) = true ->
  outcome (load_dataset read_csv (csv_file args) (text_column args)) = Return df ->
  outcome (create_tfidf_index tokenize stop_words (documents_of df (text_column args)))
    = Return (v, X) ->
  exists indices first rest,
    outcome (search tokenize stop_words argsort v X (query args)
               (Z.min (arg_top_k args) (Z.of_nat (length (rows df)))))
      = Return (indices, first :: rest) /\
    In first (similarities_of tokenize stop_words v X (query args)) /\
    (forall s, In s (similarities_of tokenize stop_words v X (query args)) ->
               (s <= first)%R) /\
    (outcome (main tokenize stop_words argsort read_csv args) = Exit 0 <->
     Forall (fun s => s = 0%R) (similarities_of tokenize stop_words v X (query args))).
Proof.
  intros Hk Hq Hload Hindex.
  set (sims := similarities_of tokenize stop_words v X (query args)).
  set (k := Z.min (arg_top_k args) (Z.of_nat (length (rows df)))).
  pose proof (similarities_in_unit_interval tokenize stop_words _ (query args) Hindex) as Hunit.
  fold sims in Hunit.
  pose proof Hindex as Hfit. apply create_tfidf_index_inr, fit_transform_inr in Hfit.
  destruct Hfit as [Hvoc [_ HX]].
  assert (Hdocs : length (rows df) <> 0).
  { intros Hz. apply Hvoc. apply fit_vocabulary_empty_iff.
    unfold documents_of, column. destruct (rows df); [reflexivity | discriminate]. }
  assert (Hk1 : (1 <= k)%Z) by (unfold k; lia).
  assert (Hlen : length sims = length (rows df)).
  { unfold sims. rewrite similarities_length, HX, transform_length.
    unfold documents_of, column. now rewrite !length_map. }
  assert (Hne : argsort sims <> []).
  { intros E. pose proof (is_argsort_length (argsort_ok sims)) as Hl.
    rewrite E in Hl. simpl in Hl. lia. }
  destruct (reversed_tail_head Hk1 Hne) as [front [i [rest [Horder Hrev]]]].
  pose proof (argsort_ok sims) as Hsorted. rewrite Horder in Hsorted.
  destruct (argsort_last_is_max _ _ Hsorted) as [Hi Hmax].
  assert (Hsearch :
    outcome (search tokenize stop_words argsort v X (query args) k)
    = Return (i :: rest, nth i sims 0%R :: map (fun j => nth j sims 0%R) rest)).
  { unfold outcome. rewrite (search_returns tokenize stop_words argsort argsort_ok).
    fold sims. rewrite Hrev. reflexivity. }
  exists (i :: rest), (nth i sims 0%R), (map (fun j => nth j sims 0%R) rest).
  split; [exact Hsearch |]. split; [now apply nth_In |]. split; [exact Hmax |].
  rewrite (main_outcome tokenize stop_words argsort read_csv args Hk Hq Hload Hindex Hsearch).
  destruct (Req_dec_T (nth i sims 0%R) 0) as [Hzero | Hnz].
  - split; [intros _ | reflexivity].
    apply Forall_forall. intros s Hs. rewrite Forall_forall in Hunit.
    specialize (Hunit s Hs). specialize (Hmax s Hs). lra.
  - split.
    + intros Hexit. exfalso. exact (print_results_never_exits _ _ _ _ Hexit).
    + intros Hall. exfalso. apply Hnz. rewrite Forall_forall in Hall.
      apply Hall. now apply nth_In.
Qed.

End RankingClaims.


(* ================================================================== *)
(** * Properties of the weights and the scores *)

Section ScoreClaims.

Variable tokenize : string -> list string.
Variable stop_words : list string.
Variable argsort : list R -> list nat.
Variable read_csv : string -> exn + DataFrame.
Hypothesis argsort_ok : forall a, Np.is_argsort a (argsort a).



(** C5: in a built index the idf weight of every vocabulary term is
    [ln((1 + N) / (1 + df)) + 1], with [N] the number of documents and [df]
    the term's document frequency, and every entry of the idf vector is
    strictly positive; the formula is positive for every [df <= N], at
    [df = N] and at [df = 0] too. *)
Theorem idf_is_smoothed_and_positive (documents : list string)
    (v : Vectorizer) (X : matrix) :
  outcome (create_tfidf_index tokenize stop_words documents) = Return (v, X) ->
  idf_ v =
    map (fun t =>
           (ln ((1 + INR (length documents))
                / (1 + INR (document_frequency t
                              (map (analyze tokenize stop_words) documents)))) + 1)%R)
        (vocabulary_ v) /\
  Forall (fun w => (0 < w)%R) (idf_ v) /\
  (forall N df, df <= N -> (0 < idf_weight N df)%R) /\
  (forall N, (0 < idf_weight N N)%R /\ (0 < idf_weight N 0)%R).
Proof.
  intros Hindex. apply create_tfidf_index_inr, fit_transform_inr in Hindex.
  destruct Hindex as [_ [Hv _]]. subst v.
  assert (Hpos : forall N df, df <= N -> (0 < idf_weight N df)%R).
  { intros N df H. apply Rlt_le_trans with 1%R; [lra | now apply idf_weight_ge_1]. }
  split; [reflexivity |]. split; [apply fit_idf_positive |]. split; [exact Hpos |].
  intros N. split; apply Hpos; lia.
Qed.

(** C7: for a query none of whose terms is in the vocabulary, [search]
    raises nothing and writes nothing to stderr: it returns positions and
    scores, and every score, like every similarity, is 0.  In [main] such
    a query ends the run through the no-relevant-results branch with exit
    status 0. *)
Theorem out_of_vocabulary_query_scores_zero (v : Vectorizer) (X : matrix)
    (q : string) (top_k : Z) :
  (forall t, In t (analyze tokenize stop_words q) -> ~ In t (vocabulary_ v)) ->
  (exists indices scores,
     search tokenize stop_words argsort v X q top_k =
       ([Call transform_call; Call cosine_similarity_call; Call argsort_call],
        Return (indices, scores)) /\
     Forall (fun s => s = 0%R) scores) /\
  Forall (fun s => s = 0%R) (similarities_of tokenize stop_words v X q) /\
  (forall args df,
     query args = q ->
     (1 <= arg_top_k args)%Z ->
     Py.truthy (Py.strip (query args)) = true ->
     outcome (load_dataset read_csv (csv_file args) (text_column args)) = Return df ->
     outcome (create_tfidf_index tokenize stop_words (documents_of df (text_column args)))
       = Return (v, X) ->
     outcome (main tokenize stop_words argsort read_csv args) = Exit 0).
Proof.
  intros Hout.
  assert (Hzero : Forall (fun s => s = 0%R) (similarities_of tokenize stop_words v X q)).
  { rewrite similarities_spec. apply Forall_map, Forall_forall. intros x _.
    apply cosine_zero_r, l2_normalize_zero_iff.
    now apply raw_weights_out_of_vocabulary. }
  assert (Hscores : forall idx,
            Forall (fun i => i < length (similarities_of tokenize stop_words v X q)) idx ->
            Forall (fun s => s = 0%R)
              (map (fun i => nth i (similarities_of tokenize stop_words v X q) 0%R) idx)).
  { intros idx Hidx. apply Forall_map. revert Hidx. apply Forall_impl. intros i Hi.
    rewrite Forall_forall in Hzero. apply Hzero. now apply nth_In. }
  assert (Hrange : forall k,
            Forall (fun i => i < length (similarities_of tokenize stop_words v X q))
              (Py.reversed (Py.slice_from (- k)
                 (argsort (similarities_of tokenize stop_words v X q))))).
  { intros k. apply (top_indices_in_range argsort argsort_ok). }
  split; [| split; [exact Hzero |]].
  - eexists. eexists. split.
    + apply (search_returns tokenize stop_words argsort argsort_ok).
    + apply Hscores, Hrange.
  - intros args df Hq Hk Hblank Hload Hindex. subst q.
    pose proof (search_returns tokenize stop_words argsort argsort_ok v X (query args)
                  (Z.min (arg_top_k args) (Z.of_nat (length (rows df))))) as Hs.
    apply (f_equal snd) in Hs. simpl in Hs.
    rewrite (main_outcome tokenize stop_words argsort read_csv args Hk Hblank Hload Hindex Hs).
    pose proof (Hscores _ (Hrange (Z.min (arg_top_k args) (Z.of_nat (length (rows df))))))
      as Hall.
    destruct (map _ _) as [| first rest] eqn:E.
    + exfalso. apply map_eq_nil in E.
      pose proof Hindex as Hfit. apply create_tfidf_index_inr, fit_transform_inr in Hfit.
      destruct Hfit as [Hvoc [_ HX]].
      assert (Hdocs : length (rows df) <> 0).
      { intros Hz. apply Hvoc. apply fit_vocabulary_empty_iff.
        unfold documents_of, column. destruct (rows df); [reflexivity | discriminate]. }
      assert (Hlen : length (Py.reversed (Py.slice_from
                (- Z.min (arg_top_k args) (Z.of_nat (length (rows df))))
                (argsort (similarities_of tokenize stop_words v X (query args))))) <> 0).
      { unfold Py.reversed. rewrite length_rev, slice_from_last_length by lia.
        rewrite (is_argsort_length (argsort_ok _)), similarities_length, HX, transform_length.
        unfold documents_of, column. rewrite !length_map. lia. }
      rewrite E in Hlen. now apply Hlen.
    + inversion Hall as [| ? ? Hfirst _]; subst.
      destruct (Req_dec_T 0 0) as [_ | Hne]; [reflexivity | now exfalso].
Qed.

End ScoreClaims.

(* ================================================================== *)
(** * Failures *)

Lemma analyze_only_stop_words tokenize stop_words (text : string) :
  (forall t, In t (tokenize text) -> is_stop_word stop_words t = true) ->
  analyze tokenize stop_words text = [].
Proof.
  intros H. unfold analyze.
  assert (E : filter (fun t => negb (is_stop_word stop_words t)) (tokenize text) = []).
  { induction (tokenize text) as [| t l IH]; [reflexivity |].
    simpl. rewrite (H t) by now left. simpl. apply IH.
    intros u Hu. apply H. now right. }
  rewrite E. reflexivity.
Qed.

Section FailureClaims.

Variable tokenize : string -> list string.
Variable stop_words : list string.
Variable argsort : list R -> list nat.
Variable read_csv : string -> exn + DataFrame.

(** C6, as the code has it: [main] fails with the invalid-top_k error
    whenever [top_k < 1], and with the empty-query error whenever
    [top_k >= 1] and the query is empty after trimming whitespace; in both
    cases the error line is all the run leaves behind, so no file is read
    and no library function, the similarity computation included, is
    called. *)
Theorem main_rejects_invalid_input_before_any_work (args : Args) :
  ((arg_top_k args < 1)%Z ->
   main tokenize stop_words argsort read_csv args =
     ([Stderr [Lit "Error: --top_k must be at least 1"]], Exit 1) /\
   failure_of (main tokenize stop_words argsort read_csv args) = Some InvalidTopKError) /\
  ((1 <= arg_top_k args)%Z -> Py.strip (query args) = EmptyString ->
   main tokenize stop_words argsort read_csv args =
     ([Stderr [Lit "Error: Query cannot be empty"]], Exit 1) /\
   failure_of (main tokenize stop_words argsort read_csv args) = Some EmptyQueryError) /\
  ((arg_top_k args < 1)%Z \/ Py.strip (query args) = EmptyString ->
   ~ calls_library (main tokenize stop_words argsort read_csv args)).
Proof.
  assert (Hk : (arg_top_k args < 1)%Z ->
               main tokenize stop_words argsort read_csv args =
               ([Stderr [Lit "Error: --top_k must be at least 1"]], Exit 1)).
  { intros H. unfold main.
    destruct (Z.ltb_spec (arg_top_k args) 1) as [_ | Hge]; [reflexivity | lia]. }
  assert (Hq : (1 <= arg_top_k args)%Z -> Py.strip (query args) = EmptyString ->
               main tokenize stop_words argsort read_csv args =
               ([Stderr [Lit "Error: Query cannot be empty"]], Exit 1)).
  { intros H Hs. unfold main.
    destruct (Z.ltb_spec (arg_top_k args) 1) as [Hlt | _]; [lia |].
    rewrite Hs. reflexivity. }
  split; [| split].
  - intros H. rewrite (Hk H). split; reflexivity.
  - intros H Hs. rewrite (Hq H Hs). split; reflexivity.
  - intros H [f Hin].
    destruct (Z.ltb_spec (arg_top_k args) 1) as [Hlt | Hge].
    + rewrite (Hk Hlt) in Hin. simpl in Hin. destruct Hin as [E | []]. discriminate.
    + destruct H as [H | Hs]; [lia |].
      rewrite (Hq Hge Hs) in Hin. simpl in Hin. destruct Hin as [E | []]. discriminate.
Qed.

(** C8, as the code has it: index construction fails, with exit status 1
    and the vectorizer's empty-vocabulary error, whenever the corpus yields
    no term, which is the case when every word of every document is a stop
    word and when there is no document at all; no index is returned then,
    and one is returned whenever the corpus yields a term.  Zero documents
    have no error of their own. *)
Theorem index_construction_fails_without_terms (documents : list string) :
  (concat (map (analyze tokenize stop_words) documents) = [] ->
   create_tfidf_index tokenize stop_words documents =
     ([Call fit_transform_call;
       Stderr [Lit "Error creating TF-IDF index: "; Lit empty_vocabulary_message]],
      Exit 1) /\
   failure_of (create_tfidf_index tokenize stop_words documents)
     = Some EmptyVocabularyError) /\
  ((forall text t, In text documents -> In t (tokenize text) ->
                   is_stop_word stop_words t = true) ->
   concat (map (analyze tokenize stop_words) documents) = []) /\
  failure_of (create_tfidf_index tokenize stop_words []) = Some EmptyVocabularyError /\
  (concat (map (analyze tokenize stop_words) documents) <> [] ->
   exists v X, create_tfidf_index tokenize stop_words documents
               = ([Call fit_transform_call], Return (v, X))).
Proof.
  split; [| split; [| split]].
  - intros H. apply fit_vocabulary_empty_iff in H.
    rewrite (create_tfidf_index_empty _ _ _ H). split; reflexivity.
  - intros H. induction documents as [| text rest IH]; [reflexivity |].
    simpl. rewrite analyze_only_stop_words.
    + apply IH. intros text' t Hin. apply H. now right.
    + intros t. apply H. now left.
  - reflexivity.
  - intros H. eexists. eexists. apply create_tfidf_index_ok.
    intros E. apply H. now apply fit_vocabulary_empty_iff.
Qed.

End FailureClaims.

(* ================================================================== *)
(** * Beyond the specification: safety of [main], and what the choice of
      [argsort] can and cannot change *)

Lemma never_raises_bind (A B : Type) (m : M A) (k : A -> M B) :
  never_raises m -> (forall a, outcome m = Return a -> never_raises (k a)) ->
  never_raises (bind m k).
Proof.
  intros Hm Hk e. destruct m as [t [a | c | e']]; simpl.
  - specialize (Hk a eq_refl e). destruct (k a) as [t' r]. exact Hk.
  - discriminate.
  - exfalso. now apply (Hm e').
Qed.

Lemma never_raises_print (line : list piece) : never_raises (print line).
Proof. intros e. discriminate. Qed.

Lemma never_raises_eprint (line : list piece) : never_raises (eprint line).
Proof. intros e. discriminate. Qed.

Lemma never_raises_ret (A : Type) (a : A) : never_raises (ret a).
Proof. intros e. discriminate. Qed.

Lemma never_raises_sys_exit (A : Type) (c : Z) : never_raises (@sys_exit A c).
Proof. intros e. discriminate. Qed.

Lemma never_raises_for_each (A : Type) (l : list A) (body : A -> M unit) :
  (forall x, In x l -> never_raises (body x)) -> never_raises (for_each l body).
Proof.
  induction l as [| x l IH]; simpl; intros H.
  - apply never_raises_ret.
  - apply never_raises_bind; [apply H; now left |].
    intros _ _. apply IH. intros y Hy. apply H. now right.
Qed.

Ltac print_step :=
  apply never_raises_bind;
  [first [apply never_raises_print | apply never_raises_eprint] | intros _ _].

(** [except Exception] with a handler that exits leaves nothing raised. *)
Lemma never_raises_try_except (A : Type) (m : M A) (handler : exn -> M A) :
  (forall e, never_raises (handler e)) -> never_raises (try_except m handler).
Proof.
  intros H e. destruct m as [t [a | c | e']]; simpl; try discriminate.
  specialize (H e' e). destruct (handler e') as [t' r]. exact H.
Qed.

Lemma load_dataset_never_raises read_csv (csv_path text_col : string) :
  never_raises (load_dataset read_csv csv_path text_col).
Proof.
  unfold load_dataset. apply never_raises_bind.
  - apply never_raises_try_except. intros [m | m | m | m | m];
      print_step; apply never_raises_sys_exit.
  - intros df _. destruct (negb (existsb (String.eqb text_col) (columns df))).
    + print_step. print_step. apply never_raises_sys_exit.
    + destruct (0 <? null_count (column df text_col)).
      * print_step. apply never_raises_ret.
      * apply never_raises_ret.
Qed.

Lemma create_tfidf_index_never_raises tokenize stop_words (documents : list string) :
  never_raises (create_tfidf_index tokenize stop_words documents).
Proof.
  unfold create_tfidf_index. apply never_raises_try_except. intros e.
  print_step. apply never_raises_sys_exit.
Qed.

Lemma print_results_never_raises (df : DataFrame) (indices : list nat)
    (scores : list R) (text_col : string) :
  Forall (fun i => i < length (rows df)) indices ->
  never_raises (print_results df indices scores text_col).
Proof.
  intros Hrange. unfold print_results. do 3 print_step.
  apply never_raises_for_each. intros [rank [idx score]] Hin.
  apply in_combine_r, in_combine_l in Hin.
  rewrite Forall_forall in Hrange. specialize (Hrange idx Hin).
  print_step.
  destruct (nth_error (rows df) idx) as [row |] eqn:E.
  - apply never_raises_bind.
    + apply never_raises_for_each. intros col _.
      destruct (negb (col =? text_col)%string);
        [apply never_raises_print | apply never_raises_ret].
    + intros _ _. print_step. apply never_raises_print.
  - apply nth_error_None in E. lia.
Qed.

(** Two ascending arrangements of the same values are the same list. *)
Lemma sorted_permutation_unique (l1 l2 : list R) :
  StronglySorted Rle l1 -> StronglySorted Rle l2 -> Permutation l1 l2 -> l1 = l2.
Proof.
  intros H1. revert l2. induction H1 as [| x l1 Hs1 IH Hx]; intros l2 H2 Hp.
  - apply Permutation_nil in Hp. now subst.
  - destruct H2 as [| y l2 Hs2 Hy].
    + apply Permutation_sym, Permutation_nil in Hp. discriminate.
    + assert (Exy : x = y).
      { rewrite Forall_forall in Hx, Hy. apply Rle_antisym.
        - assert (Hin : In y (x :: l1)).
          { apply (Permutation_in _ (Permutation_sym Hp)). now left. }
          destruct Hin as [-> | Hin]; [apply Rle_refl | auto].
        - assert (Hin : In x (y :: l2)) by (apply (Permutation_in _ Hp); now left).
          destruct Hin as [<- | Hin]; [apply Rle_refl | auto]. }
      subst y. f_equal. apply IH; [assumption |].
      now apply Permutation_cons_inv in Hp.
Qed.

Lemma slice_from_map (A B : Type) (f : A -> B) (s : Z) (a : list A) :
  Py.slice_from s (map f a) = map f (Py.slice_from s a).
Proof. unfold Py.slice_from. rewrite length_map. apply skipn_map. Qed.

Lemma argsort_values_unique (a : list R) (p1 p2 : list nat) :
  Np.is_argsort a p1 -> Np.is_argsort a p2 ->
  map (fun i => nth i a 0%R) p1 = map (fun i => nth i a 0%R) p2.
Proof.
  intros [Hp1 Hs1] [Hp2 Hs2]. apply sorted_permutation_unique.
  - now apply StronglySorted_map.
  - now apply StronglySorted_map.
  - apply Permutation_map. rewrite Hp1. now symmetry.
Qed.

Section Extras.

Variable tokenize : string -> list string.
Variable stop_words : list string.
Variable argsort : list R -> list nat.
Variable read_csv : string -> exn + DataFrame.
Hypothesis argsort_ok : forall a, Np.is_argsort a (argsort a).

(** X1: [main] never ends in an uncaught exception: whatever the arguments
    and the file system, it returns or leaves through [sys.exit].  In
    particular [scores[0]] in line 157 and [df.iloc[idx]] in lines 103 and
    106 are always in bounds. *)
Theorem main_returns_or_exits (args : Args) :
  never_raises (main tokenize stop_words argsort read_csv args).
Proof.
  unfold main.
  destruct (arg_top_k args <? 1)%Z eqn:Ek;
    [print_step; apply never_raises_sys_exit |].
  apply Z.ltb_ge in Ek.
  destruct (negb (Py.truthy (Py.strip (query args))));
    [print_step; apply never_raises_sys_exit |].
  print_step.
  apply never_raises_bind; [apply load_dataset_never_raises | intros df _].
  do 2 print_step.
  apply never_raises_bind; [apply create_tfidf_index_never_raises |].
  intros [v X] Hindex. do 3 print_step.
  apply create_tfidf_index_inr, fit_transform_inr in Hindex.
  destruct Hindex as [Hvoc [_ HX]].
  set (sims := similarities_of tokenize stop_words v X (query args)).
  set (k := Z.min (arg_top_k args) (Z.of_nat (length (rows df)))).
  assert (Hlen : length sims = length (rows df)).
  { unfold sims. rewrite similarities_length, HX, transform_length.
    unfold documents_of, column. now rewrite !length_map. }
  assert (Hdocs : length (rows df) <> 0).
  { intros Hz. apply Hvoc. apply fit_vocabulary_empty_iff.
    unfold documents_of, column. destruct (rows df); [reflexivity | discriminate]. }
  rewrite (search_returns tokenize stop_words argsort argsort_ok v X (query args) k).
  fold sims. apply never_raises_bind; [intros e; discriminate |].
  intros [indices scores] Hret. unfold outcome in Hret. simpl in Hret.
  injection Hret as <- <-.
  pose proof (top_indices_in_range argsort argsort_ok sims k) as Hrange.
  destruct (Py.reversed (Py.slice_from (- k) (argsort sims))) as [| i rest] eqn:E.
  - exfalso.
    assert (Hl : length (Py.reversed (Py.slice_from (- k) (argsort sims))) <> 0).
    { unfold Py.reversed. rewrite length_rev, slice_from_last_length by (unfold k; lia).
      rewrite (is_argsort_length (argsort_ok sims)). unfold k. lia. }
    rewrite E in Hl. now apply Hl.
  - simpl map. cbv iota beta. destruct (Req_dec_T _ _).
    + do 2 print_step. apply never_raises_sys_exit.
    + apply print_results_never_raises. rewrite <- Hlen. exact Hrange.
Qed.

(** X2: [search] rejects no [top_k]: with [top_k <= 0] the slice
    [[-top_k:]] starts at [-top_k >= 0], so [top_k = 0] returns every
    document and a negative [top_k] all but the [-top_k] lowest-scoring
    ones. *)
Theorem search_accepts_top_k_below_one (v : Vectorizer) (X : matrix)
    (q : string) (top_k : Z) :
  (top_k <= 0)%Z ->
  exists indices scores,
    outcome (search tokenize stop_words argsort v X q top_k) = Return (indices, scores) /\
    Z.of_nat (length indices) = Z.max 0 (Z.of_nat (length X) + top_k) /\
    length scores = length indices.
Proof.
  intros Hk. eexists. eexists. split; [| split].
  - unfold outcome.
    rewrite (search_returns tokenize stop_words argsort argsort_ok). reflexivity.
  - unfold Py.reversed, Py.slice_from. rewrite length_rev, length_skipn.
    rewrite (is_argsort_length (argsort_ok _)), similarities_length.
    destruct (Z.ltb_spec (- top_k) 0); lia.
  - apply length_map.
Qed.

End Extras.

(** X3: the scores [search] returns do not depend on how [argsort] orders
    equal values: any two [argsort]s that keep the contract give the same
    list of scores, though not always the same positions. *)
Theorem scores_do_not_depend_on_argsort (tokenize : string -> list string)
    (stop_words : list string) (argsort1 argsort2 : list R -> list nat)
    (v : Vectorizer) (X : matrix) (q : string) (top_k : Z) :
  (forall a, Np.is_argsort a (argsort1 a)) ->
  (forall a, Np.is_argsort a (argsort2 a)) ->
  exists indices1 indices2 scores,
    outcome (search tokenize stop_words argsort1 v X q top_k) = Return (indices1, scores) /\
    outcome (search tokenize stop_words argsort2 v X q top_k) = Return (indices2, scores).
Proof.
  intros ok1 ok2. eexists. eexists. eexists. split.
  - unfold outcome. rewrite (search_returns tokenize stop_words argsort1 ok1). reflexivity.
  - unfold outcome. rewrite (search_returns tokenize stop_words argsort2 ok2). simpl.
    do 2 f_equal. unfold Py.reversed.
    rewrite !map_rev, <- !slice_from_map. do 2 f_equal.
    apply argsort_values_unique; [apply ok2 | apply ok1].
Qed.

(* ================================================================== *)
(** * [load_dataset] *)

Lemma index_of_In (c : string) (cols : list string) :
  In c cols -> nth_error cols (index_of c cols) = Some c.
Proof.
  induction cols as [| d cols IH]; simpl; [intros [] |].
  intros H. destruct (String.eqb_spec c d) as [-> | Hne]; [reflexivity |].
  destruct H as [-> | H]; [congruence | now apply IH].
Qed.

Lemma index_of_lt (c : string) (cols : list string) :
  index_of c cols < length cols <-> In c cols.
Proof.
  split.
  - induction cols as [| d cols IH]; simpl; [lia |].
    destruct (String.eqb_spec c d) as [-> | Hne]; [now left |].
    intros H. right. apply IH. lia.
  - intros H. apply nth_error_Some. rewrite (index_of_In _ _ H). discriminate.
Qed.

Lemma index_of_other (c d : string) (cols : list string) :
  In c cols -> d <> c -> index_of d cols <> index_of c cols.
Proof.
  intros Hc Hne E.
  assert (Hd : In d cols) by (apply index_of_lt; rewrite E; now apply index_of_lt).
  pose proof (index_of_In _ _ Hc) as H1. pose proof (index_of_In _ _ Hd) as H2.
  rewrite E in H2. congruence.
Qed.

Lemma set_nth_length (i : nat) (row : list cell) (c : cell) :
  length (set_nth i row c) = length row.
Proof.
  revert i. induction row as [| x row IH]; intros [| i]; simpl; auto.
Qed.

Lemma set_nth_same (i : nat) (row : list cell) (c : cell) :
  i < length row -> nth i (set_nth i row c) None = c.
Proof.
  revert i. induction row as [| x row IH]; intros [| i]; simpl;
    intros H; try reflexivity; try lia.
  apply IH. lia.
Qed.

Lemma set_nth_other (i j : nat) (row : list cell) (c : cell) :
  j <> i -> nth j (set_nth i row c) None = nth j row None.
Proof.
  revert i j. induction row as [| x row IH]; intros [| i] [| j]; simpl;
    intros H; try reflexivity; try lia.
  apply IH. lia.
Qed.

Lemma null_count_zero (cells : list cell) :
  null_count cells = 0 <-> Forall (fun c => c <> None) cells.
Proof.
  unfold null_count. induction cells as [| [s |] cells IH]; simpl.
  - split; constructor.
  - rewrite IH. split; [constructor; [discriminate | assumption] |].
    intros H. now inversion H.
  - split; [discriminate |]. intros H. inversion H. congruence.
Qed.

Section FillFacts.

Variable df : DataFrame.
Variable col : string.
Hypothesis col_present : In col (columns df).
Hypothesis df_rectangular : rectangular df.

Lemma fillna_column :
  column (fillna df col) col
  = map (fun c => Some (filled_text c)) (column df col).
Proof.
  unfold column, fillna, rectangular in *. simpl. rewrite !map_map.
  apply map_ext_in. intros row Hrow.
  rewrite Forall_forall in df_rectangular. specialize (df_rectangular row Hrow).
  unfold get_cell at 1. simpl.
  destruct (get_cell df row col) as [s |] eqn:E.
  - exact E.
  - simpl. apply set_nth_same. rewrite df_rectangular. now apply index_of_lt.
Qed.

Lemma fillna_other_column (other : string) :
  other <> col -> column (fillna df col) other = column df other.
Proof.
  intros Hne. unfold column, fillna. simpl. rewrite map_map.
  apply map_ext. intros row. unfold get_cell at 1. simpl.
  destruct (get_cell df row col); [reflexivity |].
  apply set_nth_other. now apply index_of_other.
Qed.

Lemma fillna_rectangular : rectangular (fillna df col).
Proof.
  unfold rectangular, fillna in *. simpl. apply Forall_map.
  revert df_rectangular. apply Forall_impl. intros row Hrow.
  destruct (get_cell df row col); [assumption |].
  now rewrite set_nth_length.
Qed.

End FillFacts.

Lemma documents_without_nulls (df : DataFrame) (col : string) :
  null_count (column df col) = 0 ->
  documents_of df col = map filled_text (column df col).
Proof.
  intros H. apply null_count_zero in H. unfold documents_of.
  apply map_ext_in. intros c Hc. rewrite Forall_forall in H.
  destruct c as [s |]; [reflexivity |]. now destruct (H None Hc).
Qed.

Section LoadClaims.

Variable read_csv : string -> exn + DataFrame.

(** X4: when the file is read and has the text column, [load_dataset]
    returns a frame with the same columns and as many rows, in which no
    cell of the text column is missing: the documents are the texts of the
    file in order, a missing one replaced by the empty string, and every
    other column is as it was read. *)
Theorem load_dataset_fills_missing_text (csv_path col : string) (df : DataFrame) :
  read_csv csv_path = inr df ->
  In col (columns df) ->
  rectangular df ->
  exists loaded,
    outcome (load_dataset read_csv csv_path col) = Return loaded /\
    columns loaded = columns df /\
    length (rows loaded) = length (rows df) /\
    rectangular loaded /\
    null_count (column loaded col) = 0 /\
    documents_of loaded col = map filled_text (column df col) /\
    (forall other, other <> col -> column loaded other = column df other).
Proof.
  intros Hread Hcol Hrect. unfold load_dataset. rewrite Hread. simpl.
  assert (Hin : existsb (String.eqb col) (columns df) = true)
    by now apply existsb_eqb_In.
  rewrite Hin. simpl.
  destruct (0 <? null_count (column df col)) eqn:E.
  - exists (fillna df col). simpl.
    assert (Hnull : null_count (column (fillna df col) col) = 0).
    { rewrite (@fillna_column df col Hcol Hrect). apply null_count_zero.
      apply Forall_map, Forall_forall. intros c _. discriminate. }
    repeat split.
    + unfold fillna. simpl. apply length_map.
    + exact (@fillna_rectangular df col Hrect).
    + exact Hnull.
    + rewrite (documents_without_nulls _ _ Hnull), (@fillna_column df col Hcol Hrect).
      rewrite map_map. reflexivity.
    + intros other Hne. exact (@fillna_other_column df col Hcol other Hne).
  - exists df. simpl. apply Nat.ltb_ge in E.
    assert (Hnull : null_count (column df col) = 0) by lia.
    repeat split; try assumption.
    now apply documents_without_nulls.
Qed.

(** X5: [load_dataset] ends in [sys.exit(1)] exactly when the file cannot
    be read (whatever [pd.read_csv] raised) or lacks the text column, and
    it then stops right after an error line on stderr; in every other case
    it returns a frame. *)
Theorem load_dataset_fails_iff_unreadable_or_column_missing (csv_path col : string) :
  (outcome (load_dataset read_csv csv_path col) = Exit 1 <->
   (exists e, read_csv csv_path = inl e) \/
   (exists df, read_csv csv_path = inr df /\ ~ In col (columns df))) /\
  (outcome (load_dataset read_csv csv_path col) = Exit 1 ->
   exists before line,
     trace (load_dataset read_csv csv_path col) = before ++ [Stderr line]) /\
  (outcome (load_dataset read_csv csv_path col) <> Exit 1 ->
   exists loaded, outcome (load_dataset read_csv csv_path col) = Return loaded).
Proof.
  unfold load_dataset. destruct (read_csv csv_path) as [e | df] eqn:Hread.
  - destruct e; simpl; (split; [| split]);
      try (split; [intros _; left; eauto | reflexivity]);
      try (intros _; eexists [_], _; reflexivity);
      intros Hne; now destruct Hne.
  - simpl. destruct (existsb (String.eqb col) (columns df)) eqn:Hin; simpl.
    + apply existsb_eqb_In in Hin.
      destruct (0 <? null_count (column df col)); simpl; (split; [| split]);
        try discriminate; try (intros _; eauto);
        (split; [discriminate |]);
        (intros [[e He] | [df' [Hdf Hno]]]; [discriminate |]);
        injection Hdf as <-; contradiction.
    + assert (Hno : ~ In col (columns df)).
      { intros H. apply existsb_eqb_In in H. congruence. }
      split; [| split].
      * split; [intros _; right; eauto | reflexivity].
      * intros _. eexists [_; _], _. reflexivity.
      * intros Hne. now destruct Hne.
Qed.

End LoadClaims.

(* ================================================================== *)
(** * The query check of [main] *)

Lemma lstrip_empty_iff (s : string) :
  Py.lstrip s = EmptyString <-> all_space s = true.
Proof.
  induction s as [| c t IH]; simpl; [tauto |].
  destruct (Py.isspace c); simpl; [exact IH |].
  split; discriminate.
Qed.

Lemma all_space_append (s t : string) :
  all_space (s ++ t) = all_space s && all_space t.
Proof.
  induction s as [| c s IH]; simpl; [reflexivity |].
  rewrite IH. apply andb_assoc.
Qed.

Lemma all_space_reverse (s : string) : all_space (Py.reverse s) = all_space s.
Proof.
  induction s as [| c s IH]; simpl; [reflexivity |].
  rewrite all_space_append, IH. simpl. rewrite andb_true_r. apply andb_comm.
Qed.

Lemma reverse_empty_iff (s : string) : Py.reverse s = EmptyString <-> s = EmptyString.
Proof.
  destruct s as [| c s]; simpl; [tauto |].
  split; [| discriminate]. destruct (Py.reverse s); discriminate.
Qed.

Lemma lstrip_all_space_empty (s : string) :
  all_space (Py.lstrip s) = true -> Py.lstrip s = EmptyString.
Proof.
  induction s as [| c t IH]; simpl; [reflexivity |].
  destruct (Py.isspace c) eqn:E; [exact IH |].
  simpl. rewrite E. discriminate.
Qed.

(** [s.strip()] is empty exactly for a string of whitespace. *)
Lemma strip_empty_iff (s : string) :
  Py.strip s = EmptyString <-> all_space s = true.
Proof.
  unfold Py.strip, Py.rstrip.
  rewrite reverse_empty_iff, lstrip_empty_iff, all_space_reverse.
  split.
  - intros H. apply lstrip_empty_iff. now apply lstrip_all_space_empty.
  - intros H. apply lstrip_empty_iff in H. rewrite H. reflexivity.
Qed.

Lemma truthy_false_iff (s : string) : Py.truthy s = false <-> s = EmptyString.
Proof. destruct s; simpl; split; congruence. Qed.

Lemma slice_from_clamp (A : Type) (k : Z) (a : list A) :
  (1 <= k)%Z ->
  Py.slice_from (- Z.min k (Z.of_nat (length a))) a = Py.slice_from (- k) a.
Proof.
  intros Hk. unfold Py.slice_from.
  destruct (Z.ltb_spec (- k) 0) as [_ | H]; [| lia].
  destruct (Z.ltb_spec (- Z.min k (Z.of_nat (length a))) 0); f_equal; lia.
Qed.

Section MainChecks.

Variable tokenize : string -> list string.
Variable stop_words : list string.
Variable argsort : list R -> list nat.
Variable read_csv : string -> exn + DataFrame.

(** X6: [main] stops with the empty-query error, and nothing else done,
    exactly when [top_k >= 1] and the query is empty or consists of
    whitespace characters only. *)
Theorem main_rejects_exactly_the_whitespace_queries (args : Args) :
  main tokenize stop_words argsort read_csv args
    = ([Stderr [Lit "Error: Query cannot be empty"]], Exit 1)
  <-> (1 <= arg_top_k args)%Z /\ all_space (query args) = true.
Proof.
  unfold main. destruct (Z.ltb_spec (arg_top_k args) 1) as [Hlt | Hge].
  - split; [discriminate | lia].
  - destruct (Py.truthy (Py.strip (query args))) eqn:E; simpl negb; cbv iota.
    + split.
      * unfold bind at 1. simpl.
        match goal with |- context [let (t', r) := ?m in _] => destruct m end.
        discriminate.
      * intros [_ H]. apply strip_empty_iff in H. rewrite H in E. discriminate.
    + split; [| reflexivity]. intros _. split; [assumption |].
      apply strip_empty_iff. now apply truthy_false_iff.
Qed.

(** X7: the clamp of line 153 changes nothing: for [top_k >= 1], [search]
    returns the same positions and scores, and leaves the same trace, with
    [top_k] as with [min(top_k, documentCount)], the slice [[-top_k:]]
    being clamped to the array already. *)
Theorem clamping_top_k_changes_nothing (v : Vectorizer) (X : matrix)
    (q : string) (top_k : Z) :
  (forall a, length (argsort a) = length a) ->
  (1 <= top_k)%Z ->
  search tokenize stop_words argsort v X q (Z.min top_k (Z.of_nat (length X)))
  = search tokenize stop_words argsort v X q top_k.
Proof.
  intros Hlen Hk. unfold search. simpl.
  set (sims := Np.flatten _).
  assert (Hn : length (argsort sims) = length X).
  { rewrite Hlen. apply (similarities_length tokenize stop_words v X q). }
  rewrite <- Hn, slice_from_clamp by assumption. reflexivity.
Qed.

End MainChecks.

(* ================================================================== *)
(** * Traces of composed runs *)

Lemma trace_bind (A B : Type) (m : M A) (k : A -> M B) :
  trace (bind m k) =
    match outcome m with
    | Return a => trace m ++ trace (k a)
    | _ => trace m
    end.
Proof.
  destruct m as [t [a | c | e]]; simpl; try reflexivity. now destruct (k a).
Qed.

Lemma outcome_bind_cases (A B : Type) (m : M A) (k : A -> M B) :
  outcome (bind m k) =
    match outcome m with
    | Return a => outcome (k a)
    | Exit c => Exit c
    | Raised e => Raised e
    end.
Proof.
  destruct m as [t [a | c | e]]; simpl; try reflexivity. now destruct (k a).
Qed.

Lemma exit_announced_bind (A B : Type) (m : M A) (k : A -> M B) :
  exit_announced m -> (forall a, exit_announced (k a)) -> exit_announced (bind m k).
Proof.
  intros Hm Hk c. rewrite outcome_bind_cases, trace_bind.
  destruct (outcome m) as [a | c' | e] eqn:E.
  - intros Hc. destruct (Hk a c Hc) as [[-> [before [line Ht]]] | [-> [before Ht]]].
    + left. split; [reflexivity |]. exists (trace m ++ before), line.
      rewrite Ht. apply app_assoc.
    + right. split; [reflexivity |]. exists (trace m ++ before).
      rewrite Ht. apply app_assoc.
  - intros Hc. injection Hc as ->. now apply Hm.
  - discriminate.
Qed.

Lemma never_exits_announced (A : Type) (m : M A) : never_exits m -> exit_announced m.
Proof. intros H c Hc. now destruct (H c). Qed.

Lemma exit_announced_error (A : Type) (line : list piece) :
  exit_announced (eprint line ;;; @sys_exit A 1).
Proof.
  intros c Hc. injection Hc as <-. left. split; [reflexivity |].
  exists [], line. reflexivity.
Qed.

Lemma exit_announced_try_except (A : Type) (m : M A) (handler : exn -> M A) :
  exit_announced m -> (forall e, exit_announced (handler e)) ->
  exit_announced (try_except m handler).
Proof.
  intros Hm Hh c. destruct m as [t [a | c' | e]]; simpl.
  - discriminate.
  - intros Hc. injection Hc as ->. exact (Hm c eq_refl).
  - specialize (Hh e c). destruct (handler e) as [t' r]. simpl in *.
    intros Hc. destruct (Hh Hc) as [[-> [before [line Ht]]] | [-> [before Ht]]].
    + left. split; [reflexivity |]. exists (t ++ before), line.
      rewrite Ht. apply app_assoc.
    + right. split; [reflexivity |]. exists (t ++ before).
      rewrite Ht. apply app_assoc.
Qed.

Lemma never_exits_call (A : Type) (f : libcall) (r : exn + A) : never_exits (call f r).
Proof. intros c. destruct r; discriminate. Qed.

Ltac announce_print :=
  apply exit_announced_bind;
  [apply never_exits_announced; intros c; discriminate | intros _].

Lemma load_dataset_exit_announced read_csv (csv_path col : string) :
  exit_announced (load_dataset read_csv csv_path col).
Proof.
  unfold load_dataset. apply exit_announced_bind.
  - apply exit_announced_try_except.
    + apply never_exits_announced, never_exits_call.
    + intros [m | m | m | m | m]; apply exit_announced_error.
  - intros df. destruct (negb (existsb (String.eqb col) (columns df))).
    + announce_print. apply exit_announced_error.
    + destruct (0 <? null_count (column df col));
        apply never_exits_announced; intros c; discriminate.
Qed.

Lemma create_tfidf_index_exit_announced tokenize stop_words (documents : list string) :
  exit_announced (create_tfidf_index tokenize stop_words documents).
Proof.
  unfold create_tfidf_index. apply exit_announced_try_except.
  - apply never_exits_announced, never_exits_call.
  - intros e. apply exit_announced_error.
Qed.

Lemma search_exit_announced tokenize stop_words argsort v (X : matrix) q (top_k : Z) :
  exit_announced (search tokenize stop_words argsort v X q top_k).
Proof.
  unfold search. apply exit_announced_try_except.
  - apply never_exits_announced. simpl.
    destruct (Np.take _ _); intros c; discriminate.
  - intros e. apply exit_announced_error.
Qed.

Section ExitStatus.

Variable tokenize : string -> list string.
Variable stop_words : list string.
Variable argsort : list R -> list nat.
Variable read_csv : string -> exn + DataFrame.

(** X8: once [parse_args] has returned (from line 131 on), whenever [main]
    ends in [sys.exit], the status is 1 and the last thing written is an
    error line on stderr, or the status is 0 and the last two lines are the
    no-relevant-results message; this for every argument record, file
    system and [argsort].  The exits of argparse itself, before line 131,
    are not among the runs of [main] here. *)
Theorem main_exit_status_is_announced (args : Args) :
  exit_announced (main tokenize stop_words argsort read_csv args).
Proof.
  unfold main.
  destruct (arg_top_k args <? 1)%Z; [apply exit_announced_error |].
  destruct (negb (Py.truthy (Py.strip (query args)))); [apply exit_announced_error |].
  announce_print.
  apply exit_announced_bind; [apply load_dataset_exit_announced | intros df].
  do 2 announce_print.
  apply exit_announced_bind; [apply create_tfidf_index_exit_announced | intros [v X]].
  do 3 announce_print.
  apply exit_announced_bind; [apply search_exit_announced | intros [indices scores]].
  destruct scores as [| first rest].
  - apply never_exits_announced. intros c. discriminate.
  - destruct (Req_dec_T first 0).
    + intros c Hc. injection Hc as <-. right. split; [reflexivity |].
      exists []. reflexivity.
    + apply never_exits_announced, print_results_never_exits.
Qed.

End ExitStatus.

(* ================================================================== *)
(** * The order of the library calls *)

Lemma calls_of_app (t1 t2 : list event) :
  calls_of (t1 ++ t2) = calls_of t1 ++ calls_of t2.
Proof. apply flat_map_app. Qed.

Lemma calls_of_bind (A B : Type) (m : M A) (k : A -> M B) :
  calls_of (trace (bind m k)) =
    calls_of (trace m) ++
    match outcome m with
    | Return a => calls_of (trace (k a))
    | _ => []
    end.
Proof.
  rewrite trace_bind. destruct (outcome m); [apply calls_of_app | |];
    now rewrite app_nil_r.
Qed.

Lemma no_calls_bind (A B : Type) (m : M A) (k : A -> M B) :
  calls_of (trace m) = [] -> (forall a, calls_of (trace (k a)) = []) ->
  calls_of (trace (bind m k)) = [].
Proof.
  intros Hm Hk. rewrite calls_of_bind, Hm. simpl.
  destruct (outcome m); [apply Hk | reflexivity | reflexivity].
Qed.

Lemma no_calls_for_each (A : Type) (l : list A) (body : A -> M unit) :
  (forall x, calls_of (trace (body x)) = []) ->
  calls_of (trace (for_each l body)) = [].
Proof.
  intros H. induction l as [| x l IH]; simpl; [reflexivity |].
  apply no_calls_bind; auto.
Qed.

Lemma print_results_calls (df : DataFrame) (indices : list nat) (scores : list R)
    (text_col : string) :
  calls_of (trace (print_results df indices scores text_col)) = [].
Proof.
  unfold print_results.
  do 3 (apply no_calls_bind; [reflexivity | intros _]).
  apply no_calls_for_each. intros [rank [idx score]].
  apply no_calls_bind; [reflexivity | intros _].
  destruct (nth_error (rows df) idx) as [row |]; [| reflexivity].
  apply no_calls_bind.
  - apply no_calls_for_each. intros col.
    destruct (negb (col =? text_col)%string); reflexivity.
  - intros _. apply no_calls_bind; [reflexivity | intros _; reflexivity].
Qed.

Lemma load_dataset_calls read_csv (csv_path col : string) :
  calls_of (trace (load_dataset read_csv csv_path col)) = [pd_read_csv].
Proof.
  unfold load_dataset. destruct (read_csv csv_path) as [e | df].
  - destruct e; reflexivity.
  - simpl. destruct (negb (existsb (String.eqb col) (columns df))); [reflexivity |].
    destruct (0 <? null_count (column df col)); reflexivity.
Qed.

Lemma load_dataset_exit_code read_csv (csv_path col : string) (c : Z) :
  outcome (load_dataset read_csv csv_path col) = Exit c -> c = 1%Z.
Proof.
  unfold load_dataset. destruct (read_csv csv_path) as [e | df].
  - destruct e; simpl; congruence.
  - simpl. destruct (negb (existsb (String.eqb col) (columns df))); [simpl; congruence |].
    destruct (0 <? null_count (column df col)); discriminate.
Qed.

Lemma create_tfidf_index_calls tokenize stop_words (documents : list string) :
  calls_of (trace (create_tfidf_index tokenize stop_words documents))
  = [fit_transform_call].
Proof.
  unfold create_tfidf_index.
  destruct (fit_transform tokenize stop_words documents); reflexivity.
Qed.

Lemma create_tfidf_index_exit_code tokenize stop_words (documents : list string) (c : Z) :
  outcome (create_tfidf_index tokenize stop_words documents) = Exit c -> c = 1%Z.
Proof.
  unfold create_tfidf_index.
  destruct (fit_transform tokenize stop_words documents); simpl; congruence.
Qed.

Lemma search_calls tokenize stop_words argsort v (X : matrix) q (top_k : Z) :
  calls_of (trace (search tokenize stop_words argsort v X q top_k))
  = [transform_call; cosine_similarity_call; argsort_call].
Proof.
  unfold search. simpl. destruct (Np.take _ _); reflexivity.
Qed.

Lemma print_then_calls (B : Type) (line : list piece) (k : M B) :
  calls_of (trace (print line ;;; k)) = calls_of (trace k).
Proof. destruct k as [t r]. reflexivity. Qed.

Lemma print_then_outcome (B : Type) (line : list piece) (k : M B) :
  outcome (print line ;;; k) = outcome k.
Proof. destruct k as [t r]. reflexivity. Qed.

Section CallOrder.

Variable tokenize : string -> list string.
Variable stop_words : list string.
Variable argsort : list R -> list nat.
Variable read_csv : string -> exn + DataFrame.

(** X9: once [parse_args] has returned (from line 131 on), the library
    calls of a run of [main] are an initial part of the pipeline read, fit,
    transform, cosine similarity, argsort: none, the read alone, read and
    fit, or all five, each once and in this order; and such a run that
    returns or ends with status 0 has made all five.  The exits of argparse
    itself, before line 131, are not among the runs of [main] here. *)
Theorem main_calls_follow_the_pipeline (args : Args) :
  In (calls_of (trace (main tokenize stop_words argsort read_csv args)))
     [[]; [pd_read_csv]; [pd_read_csv; fit_transform_call]; pipeline] /\
  (outcome (main tokenize stop_words argsort read_csv args) = Return tt \/
   outcome (main tokenize stop_words argsort read_csv args) = Exit 0 ->
   calls_of (trace (main tokenize stop_words argsort read_csv args)) = pipeline).
Proof.
  unfold main.
  destruct (arg_top_k args <? 1)%Z.
  { split; [now left | intros [H | H]; discriminate]. }
  destruct (negb (Py.truthy (Py.strip (query args)))).
  { split; [now left | intros [H | H]; discriminate]. }
  rewrite print_then_calls, print_then_outcome.
  rewrite calls_of_bind, outcome_bind_cases, load_dataset_calls.
  pose proof (@load_dataset_exit_code read_csv (csv_file args) (text_column args)) as Hload.
  destruct (outcome (load_dataset read_csv (csv_file args) (text_column args)))
    as [df | c | e]; cbv iota beta.
  2: { split; [right; now left |].
       intros [H | H]; [discriminate |]. injection H as ->.
       specialize (Hload 0%Z eq_refl). discriminate. }
  2: { split; [right; now left | intros [H | H]; discriminate]. }
  clear Hload.
  rewrite !print_then_calls, !print_then_outcome.
  rewrite calls_of_bind, outcome_bind_cases, create_tfidf_index_calls.
  pose proof (@create_tfidf_index_exit_code tokenize stop_words
                (documents_of df (text_column args))) as Hindex.
  destruct (outcome (create_tfidf_index tokenize stop_words
                       (documents_of df (text_column args)))) as [[v X] | c | e];
    cbv iota beta.
  2: { split; [right; right; now left |].
       intros [H | H]; [discriminate |]. injection H as ->.
       specialize (Hindex 0%Z eq_refl). discriminate. }
  2: { split; [right; right; now left | intros [H | H]; discriminate]. }
  clear Hindex.
  rewrite !print_then_calls, !print_then_outcome.
  rewrite calls_of_bind, search_calls.
  match goal with
  | |- context [match ?o with Return a => @?f a | Exit _ => [] | Raised _ => [] end] =>
      assert (Hrest : match o with Return a => f a | Exit _ => [] | Raised _ => [] end
                      = @nil libcall)
  end.
  { destruct (outcome (search _ _ _ _ _ _ _)) as [[indices [| first rest]] | c | e];
      try reflexivity.
    destruct (Req_dec_T first 0); [reflexivity | apply print_results_calls]. }
  rewrite Hrest. split; [do 3 right; now left | reflexivity].
Qed.

End CallOrder.

(* ================================================================== *)
(** * What [print_results] prints *)

Lemma filter_trace_bind (A B : Type) (f : event -> bool) (m : M A) (k : A -> M B) :
  filter f (trace (bind m k)) =
    filter f (trace m) ++
    match outcome m with
    | Return a => filter f (trace (k a))
    | _ => []
    end.
Proof.
  rewrite trace_bind. destruct (outcome m); [apply filter_app | |];
    now rewrite app_nil_r.
Qed.

Lemma string_length_append (s t : string) :
  String.length (s ++ t) = String.length s + String.length t.
Proof. induction s as [| c s IH]; simpl; [reflexivity | now rewrite IH]. Qed.

Lemma prefix_length (n : nat) (s : string) :
  String.length (Py.prefix n s) = Nat.min n (String.length s).
Proof.
  revert s. induction n as [| n IH]; intros [| c s]; simpl; try reflexivity.
  now rewrite IH.
Qed.

Lemma prints_print (f : event -> bool) (line : list piece) :
  prints f (filter f [Stdout line]) (print line).
Proof. repeat split. repeat constructor. now exists line. Qed.

Lemma prints_ret (f : event -> bool) : prints f [] (ret tt).
Proof. repeat split. constructor. Qed.

Lemma prints_bind (f : event -> bool) (p1 p2 : list event) (m k : M unit) :
  prints f p1 m -> prints f p2 k -> prints f (p1 ++ p2) (m ;;; k).
Proof.
  intros [Hm1 [Hm2 Hm3]] [Hk1 [Hk2 Hk3]]. repeat split.
  - now rewrite outcome_bind_cases, Hm1.
  - rewrite trace_bind, Hm1. now apply Forall_app.
  - now rewrite filter_trace_bind, Hm1, Hm3, Hk3.
Qed.

Lemma prints_for_each (A : Type) (f : event -> bool) (pick : A -> list event)
    (l : list A) (body : A -> M unit) :
  (forall x, In x l -> prints f (pick x) (body x)) ->
  prints f (flat_map pick l) (for_each l body).
Proof.
  induction l as [| x l IH]; simpl; intros H.
  - apply prints_ret.
  - apply prints_bind; [apply H; now left |].
    apply IH. intros y Hy. apply H. now right.
Qed.

Lemma prints_eq (f : event -> bool) (p q : list event) (m : M unit) :
  prints f p m -> p = q -> prints f q m.
Proof. now intros H <-. Qed.

Section PrintResults.

Variable df : DataFrame.
Variable text_col : string.
Variable f : event -> bool.
Hypothesis skips_rule : forall rest, f (Stdout (Lit (times "=" 80) :: rest)) = false.
Hypothesis skips_dashes : forall rest, f (Stdout (Lit (times "-" 80) :: rest)) = false.
Hypothesis skips_blank : forall rest, f (Stdout (Lit newline :: rest)) = false.
Hypothesis skips_top : forall rest, f (Stdout (Lit "Top " :: rest)) = false.
Hypothesis skips_metadata : forall rest, f (Stdout (Lit "  " :: rest)) = false.

Lemma print_results_prints (indices : list nat) (scores : list R) :
  Forall (fun i => i < length (rows df)) indices ->
  prints f (flat_map (picked_of df text_col f)
              (combine (seq 1 (length indices)) (combine indices scores)))
         (print_results df indices scores text_col).
Proof.
  intros Hrange. unfold print_results.
  eapply prints_eq.
  - apply prints_bind; [apply prints_print |].
    apply prints_bind; [apply prints_print |].
    apply prints_bind; [apply prints_print |].
    apply prints_for_each with (pick := picked_of df text_col f).
    intros [rank [idx score]] Hin.
    apply in_combine_r, in_combine_l in Hin.
    rewrite Forall_forall in Hrange. specialize (Hrange idx Hin).
    destruct (nth_error (rows df) idx) as [row |] eqn:Erow;
      [| apply nth_error_None in Erow; lia].
    assert (Hrow : nth idx (rows df) [] = row) by now apply nth_error_nth.
    eapply prints_eq.
    + apply prints_bind; [apply prints_print |].
      apply prints_bind.
      * apply prints_for_each with (pick := fun _ : string => @nil event). intros col _.
        destruct (negb (col =? text_col)%string).
        -- eapply prints_eq; [apply prints_print |].
           cbn [filter]. now rewrite skips_metadata.
        -- apply prints_ret.
      * apply prints_bind; apply prints_print.
    + unfold picked_of, preview_line, rank_line, text_preview. simpl fst. simpl snd.
      rewrite Hrow.
      assert (Hnil : flat_map (fun _ : string => @nil event) (columns df) = []).
      { induction (columns df); simpl; auto. }
      rewrite Hnil. cbn [filter app]. rewrite skips_dashes.
      destruct (f _); destruct (f _); reflexivity.
  - cbn [filter app]. rewrite skips_blank, skips_top, skips_rule. reflexivity.
Qed.

End PrintResults.

Lemma flat_map_singleton (A B : Type) (g : A -> B) (l : list A) :
  flat_map (fun x => [g x]) l = map g l.
Proof. induction l as [| x l IH]; simpl; [reflexivity | now rewrite IH]. Qed.

Lemma text_preview_length (text : string) :
  String.length (text_preview text) <= 203 /\
  (String.length text <= 200 -> text_preview text = text) /\
  (200 < String.length text ->
   text_preview text = (Py.prefix 200 text ++ "...")%string /\
   String.length (text_preview text) = 203).
Proof.
  unfold text_preview. destruct (Nat.ltb_spec 200 (String.length text)) as [H | H].
  - assert (Hl : String.length (Py.prefix 200 text ++ "...") = 203).
    { rewrite string_length_append, prefix_length. simpl String.length. lia. }
    repeat split; try lia; intros; try reflexivity; lia.
  - repeat split; try lia; intros; try reflexivity; lia.
Qed.

Lemma rank_lines_of_items (df : DataFrame) (text_col : string) (indices : list nat)
    (scores : list R) (n : nat) :
  flat_map (picked_of df text_col is_rank_line)
    (combine (seq n (length indices)) (combine indices scores))
  = map (fun item => rank_line (fst item) (snd item))
        (combine (seq n (length indices)) scores).
Proof.
  unfold picked_of. simpl. rewrite flat_map_singleton.
  revert scores n.
  induction indices as [| i indices IH]; intros [| s scores] n; simpl; try reflexivity.
  f_equal. apply IH.
Qed.

Lemma preview_lines_of_items (df : DataFrame) (text_col : string) (indices : list nat)
    (scores : list R) (n : nat) :
  flat_map (picked_of df text_col is_preview_line)
    (combine (seq n (length indices)) (combine indices scores))
  = map (fun item => preview_line df text_col (fst item)) (combine indices scores).
Proof.
  unfold picked_of. simpl. rewrite flat_map_singleton.
  revert scores n.
  induction indices as [| i indices IH]; intros [| s scores] n; simpl; try reflexivity.
  f_equal. apply IH.
Qed.

(** X10: for positions inside the frame, [print_results] returns after
    writing to stdout only, and it prints one result per (position, score)
    pair, in order: the rank lines are exactly ranks 1, 2, ... each with
    the score of its pair, as many as the shorter of the two lists. *)
Theorem print_results_ranks_results_in_order (df : DataFrame) (indices : list nat)
    (scores : list R) (text_col : string) :
  Forall (fun i => i < length (rows df)) indices ->
  outcome (print_results df indices scores text_col) = Return tt /\
  Forall is_stdout (trace (print_results df indices scores text_col)) /\
  filter is_rank_line (trace (print_results df indices scores text_col))
  = map (fun item => rank_line (fst item) (snd item))
        (combine (seq 1 (length indices)) scores) /\
  length (filter is_rank_line (trace (print_results df indices scores text_col)))
  = Nat.min (length indices) (length scores).
Proof.
  intros Hrange.
  destruct (@print_results_prints df text_col is_rank_line
              (fun _ => eq_refl) (fun _ => eq_refl) (fun _ => eq_refl)
              (fun _ => eq_refl) (fun _ => eq_refl) indices scores Hrange)
    as [H1 [H2 H3]].
  rewrite rank_lines_of_items in H3.
  repeat split; try assumption.
  rewrite H3, length_map, length_combine, length_seq. reflexivity.
Qed.

(** X11: for positions inside the frame, [print_results] shows one text
    preview per result, in order, and a preview is the text itself when
    that has at most 200 characters and otherwise its first 200 characters
    followed by three dots, 203 characters in all. *)
Theorem print_results_previews_at_most_203_characters (df : DataFrame)
    (indices : list nat) (scores : list R) (text_col : string) :
  Forall (fun i => i < length (rows df)) indices ->
  filter is_preview_line (trace (print_results df indices scores text_col))
  = map (fun item => preview_line df text_col (fst item)) (combine indices scores) /\
  (forall text,
     String.length (text_preview text) <= 203 /\
     (String.length text <= 200 -> text_preview text = text) /\
     (200 < String.length text ->
      text_preview text = (Py.prefix 200 text ++ "...")%string /\
      String.length (text_preview text) = 203)).
Proof.
  intros Hrange. split; [| apply text_preview_length].
  destruct (@print_results_prints df text_col is_preview_line
              (fun _ => eq_refl) (fun _ => eq_refl) (fun _ => eq_refl)
              (fun _ => eq_refl) (fun _ => eq_refl) indices scores Hrange)
    as [_ [_ H3]].
  rewrite H3. apply preview_lines_of_items.
Qed.

(* ================================================================== *)
(** * A run of [main] that finds something *)

Lemma print_then_skip (B : Type) (f : event -> bool) (line : list piece) (k : M B) :
  f (Stdout line) = false ->
  filter f (trace (print line ;;; k)) = filter f (trace k).
Proof. intros H. destruct k as [t r]. simpl. now rewrite H. Qed.

Lemma bind_return_filter (A B : Type) (f : event -> bool) (m : M A) (k : A -> M B)
    (a : A) :
  outcome m = Return a ->
  filter f (trace (bind m k)) = filter f (trace m) ++ filter f (trace (k a)).
Proof. intros H. now rewrite filter_trace_bind, H. Qed.

Lemma load_dataset_no_rank_line read_csv (csv_path col : string) :
  filter is_rank_line (trace (load_dataset read_csv csv_path col)) = [].
Proof.
  unfold load_dataset. destruct (read_csv csv_path) as [e | df].
  - destruct e; reflexivity.
  - simpl. destruct (negb (existsb (String.eqb col) (columns df))); [reflexivity |].
    destruct (0 <? null_count (column df col)); reflexivity.
Qed.

Lemma create_tfidf_index_no_rank_line tokenize stop_words (documents : list string) :
  filter is_rank_line (trace (create_tfidf_index tokenize stop_words documents)) = [].
Proof.
  unfold create_tfidf_index.
  destruct (fit_transform tokenize stop_words documents); reflexivity.
Qed.

Lemma StronglySorted_descending_scores (a : list R) (idx : list nat) :
  StronglySorted (fun i j => (nth j a 0 <= nth i a 0)%R) idx ->
  StronglySorted (fun x y => (y <= x)%R) (map (fun i => nth i a 0%R) idx).
Proof. intros H. now apply StronglySorted_map. Qed.

Ltac skip_print := rewrite (@print_then_skip unit is_rank_line); [| reflexivity].

Section FoundSomething.

Variable tokenize : string -> list string.
Variable stop_words : list string.
Variable argsort : list R -> list nat.
Variable read_csv : string -> exn + DataFrame.
Hypothesis argsort_ok : forall a, Np.is_argsort a (argsort a).

(** X12: when the arguments are accepted, the frame is loaded, the index
    is built and some document has a non-zero similarity to the query,
    [main] returns normally after printing exactly
    [min(top_k, documentCount)] results: ranks 1, 2, ... with the scores
    that [search] returned, which descend. *)
Theorem main_prints_the_top_results (args : Args) (df : DataFrame)
    (v : Vectorizer) (X : matrix) :
  (1 <= arg_top_k args)%Z ->
  Py.truthy (Py.strip (query args)) = true ->
  outcome (load_dataset read_csv (csv_file args) (text_column args)) = Return df ->
  outcome (create_tfidf_index tokenize stop_words (documents_of df (text_column args)))
    = Return (v, X) ->
  ~ Forall (fun s => s = 0%R) (similarities_of tokenize stop_words v X (query args)) ->
  outcome (main tokenize stop_words argsort read_csv args) = Return tt /\
  exists indices scores,
    outcome (search tokenize stop_words argsort v X (query args)
               (Z.min (arg_top_k args) (Z.of_nat (length (rows df)))))
      = Return (indices, scores) /\
    filter is_rank_line (trace (main tokenize stop_words argsort read_csv args))
      = map (fun item => rank_line (fst item) (snd item))
            (combine (seq 1 (length indices)) scores) /\
    Z.of_nat (length (filter is_rank_line
                        (trace (main tokenize stop_words argsort read_csv args))))
      = Z.min (arg_top_k args) (Z.of_nat (length (rows df))) /\
    StronglySorted (fun x y => (y <= x)%R) scores.
Proof.
  intros Hk Hq Hload Hindex Hsome.
  set (sims := similarities_of tokenize stop_words v X (query args)) in *.
  set (k := Z.min (arg_top_k args) (Z.of_nat (length (rows df)))).
  pose proof (similarities_in_unit_interval tokenize stop_words _ (query args) Hindex)
    as Hunit. fold sims in Hunit.
  pose proof Hindex as Hfit. apply create_tfidf_index_inr, fit_transform_inr in Hfit.
  destruct Hfit as [Hvoc [_ HX]].
  assert (Hdocs : length (rows df) <> 0).
  { intros Hz. apply Hvoc. apply fit_vocabulary_empty_iff.
    unfold documents_of, column. destruct (rows df); [reflexivity | discriminate]. }
  assert (Hk1 : (1 <= k)%Z) by (unfold k; lia).
  assert (Hlen : length sims = length (rows df)).
  { unfold sims. rewrite similarities_length, HX, transform_length.
    unfold documents_of, column. now rewrite !length_map. }
  assert (Hne : argsort sims <> []).
  { intros E. pose proof (is_argsort_length (argsort_ok sims)) as Hl.
    rewrite E in Hl. simpl in Hl. lia. }
  destruct (reversed_tail_head Hk1 Hne) as [front [i [rest [Horder Hrev]]]].
  pose proof (argsort_ok sims) as Hsorted. rewrite Horder in Hsorted.
  destruct (argsort_last_is_max _ _ Hsorted) as [Hi Hmax].
  pose proof (search_returns tokenize stop_words argsort argsort_ok v X (query args) k)
    as Hrun. fold sims in Hrun.
  set (top := Py.reversed (Py.slice_from (- k) (argsort sims))) in *.
  set (scores := map (fun j => nth j sims 0%R) top) in *.
  assert (Hsearch : outcome (search tokenize stop_words argsort v X (query args) k)
                    = Return (top, scores)) by (rewrite Hrun; reflexivity).
  assert (Hrange : Forall (fun j => j < length (rows df)) top).
  { rewrite <- Hlen. apply (top_indices_in_range argsort argsort_ok). }
  assert (Hfirst : exists first others, scores = first :: others /\ first <> 0%R).
  { unfold scores. rewrite Hrev. simpl. eexists. eexists. split; [reflexivity |].
    intros Hz. apply Hsome. apply Forall_forall. intros s Hs.
    rewrite Forall_forall in Hunit. specialize (Hunit s Hs). specialize (Hmax s Hs).
    lra. }
  destruct Hfirst as [first [others [Hscores Hnz]]].
  destruct (@print_results_prints df (text_column args) is_rank_line
              (fun _ => eq_refl) (fun _ => eq_refl) (fun _ => eq_refl)
              (fun _ => eq_refl) (fun _ => eq_refl) top scores Hrange)
    as [Hret [_ Hlines]].
  rewrite rank_lines_of_items in Hlines.
  assert (Hout : outcome (main tokenize stop_words argsort read_csv args) = Return tt).
  { rewrite (main_outcome tokenize stop_words argsort read_csv args Hk Hq Hload Hindex
               Hsearch).
    rewrite Hscores. destruct (Req_dec_T first 0); [contradiction |].
    rewrite <- Hscores. exact Hret. }
  assert (Htrace :
    filter is_rank_line (trace (main tokenize stop_words argsort read_csv args))
    = filter is_rank_line (trace (print_results df top scores (text_column args)))).
  { unfold main.
    destruct (Z.ltb_spec (arg_top_k args) 1) as [Hlt | _]; [lia |].
    rewrite Hq. simpl negb. cbv iota.
    skip_print.
    rewrite bind_return_filter with (a := df) by exact Hload.
    rewrite load_dataset_no_rank_line, app_nil_l.
    repeat skip_print.
    rewrite bind_return_filter with (a := (v, X)) by exact Hindex.
    rewrite create_tfidf_index_no_rank_line, app_nil_l. cbv iota beta.
    repeat skip_print.
    rewrite bind_return_filter with (a := (top, scores)) by exact Hsearch.
    fold k. rewrite Hrun.
    change (filter is_rank_line
              (trace ([Call transform_call; Call cosine_similarity_call;
                       Call argsort_call], Return (top, scores))))
      with (@nil event).
    rewrite app_nil_l. cbv iota beta.
    rewrite Hscores. destruct (Req_dec_T first 0); [contradiction | reflexivity]. }
  split; [exact Hout |].
  exists top, scores. split; [exact Hsearch |]. split; [| split].
  - rewrite Htrace. exact Hlines.
  - rewrite Htrace, Hlines, length_map, length_combine, length_seq.
    unfold scores. rewrite length_map, Nat.min_id.
    unfold top, Py.reversed. rewrite length_rev, slice_from_last_length by assumption.
    rewrite (is_argsort_length (argsort_ok sims)), Hlen. unfold k. lia.
  - apply StronglySorted_descending_scores, (top_indices_descend argsort argsort_ok).
Qed.

End FoundSomething.

(* ================================================================== *)
(** * Runs on [pets.csv] *)

Local Open Scope string_scope.

Lemma pets_documents : documents_of pets "text" = ["cat"; "cat"].
Proof. reflexivity. Qed.

Lemma pets_vocabulary :
  fit_vocabulary ascii_tokenize sample_stop_words ["cat"; "cat"] = ["cat"].
Proof. vm_compute. reflexivity. Qed.

Lemma idf_weight_all_documents (N : nat) : idf_weight N N = 1%R.
Proof.
  unfold idf_weight. pose proof (pos_INR N).
  replace ((1 + INR N) / (1 + INR N))%R with 1%R by (field; lra).
  rewrite ln_1. lra.
Qed.

Lemma l2_normalize_single (w : R) : (0 < w)%R -> l2_normalize [w] = [1%R].
Proof.
  intros Hw. unfold l2_normalize.
  assert (Hn : norm [w] = w).
  { unfold norm, dot. simpl. rewrite Rplus_0_r. apply sqrt_square. lra. }
  rewrite Hn. destruct (Req_dec_T w 0); [lra |]. simpl. f_equal. field. lra.
Qed.

Lemma pets_fit : fit ascii_tokenize sample_stop_words ["cat"; "cat"] = pets_vectorizer.
Proof.
  unfold fit. rewrite pets_vocabulary. unfold pets_vectorizer. f_equal.
  cbn [map]. f_equal.
  replace (document_frequency "cat"
             (map (analyze ascii_tokenize sample_stop_words) ["cat"; "cat"]))
    with 2 by (vm_compute; reflexivity).
  apply idf_weight_all_documents.
Qed.

Lemma pets_row :
  l2_normalize (raw_weights ascii_tokenize sample_stop_words pets_vectorizer "cat")
  = [1%R].
Proof.
  unfold raw_weights, pets_vectorizer. cbn [vocabulary_ idf_ combine map fst snd].
  replace (term_frequency "cat" (analyze ascii_tokenize sample_stop_words "cat"))
    with 1 by (vm_compute; reflexivity).
  apply l2_normalize_single. simpl. lra.
Qed.

Lemma pets_index :
  create_tfidf_index ascii_tokenize sample_stop_words ["cat"; "cat"] =
    ([Call fit_transform_call], Return (pets_vectorizer, pets_matrix)).
Proof.
  rewrite create_tfidf_index_ok by (rewrite pets_vocabulary; discriminate).
  rewrite pets_fit. unfold transform. cbn [map]. rewrite pets_row. reflexivity.
Qed.

Lemma pets_similarities :
  similarities_of ascii_tokenize sample_stop_words pets_vectorizer pets_matrix "cat"
  = [1%R; 1%R].
Proof.
  rewrite similarities_spec, pets_row. unfold pets_matrix, cosine. cbn [map].
  rewrite l2_normalize_single by lra. unfold dot. simpl.
  replace (1 * 1 + 0)%R with 1%R by lra. reflexivity.
Qed.

Lemma stable_argsort_tie (x : R) : stable_argsort [x; x] = [0; 1].
Proof.
  unfold stable_argsort. cbn [length seq isort insert nth].
  rewrite Rleb_refl_true. reflexivity.
Qed.

Lemma pets_search (top_k : Z) :
  (top_k = 2 \/ top_k = 0)%Z ->
  search ascii_tokenize sample_stop_words stable_argsort pets_vectorizer pets_matrix
    "cat" top_k
  = ([Call transform_call; Call cosine_similarity_call; Call argsort_call],
     Return ([1; 0], [1%R; 1%R])).
Proof.
  intros H.
  rewrite (search_returns ascii_tokenize sample_stop_words stable_argsort stable_argsort_ok).
  rewrite pets_similarities, stable_argsort_tie. destruct H as [-> | ->]; reflexivity.
Qed.

Lemma pets_load :
  load_dataset pets_fs "pets.csv" "text" = ([Call pd_read_csv], Return pets).
Proof. reflexivity. Qed.

(** A file without data fails at load time, before index construction. *)
Example blank_file_fails_at_load :
  failure_of (main ascii_tokenize sample_stop_words stable_argsort pets_fs
                {| csv_file := "blank.csv"; text_column := "text";
                   query := "cat"; arg_top_k := 10 |})
  = Some EmptyCorpusError.
Proof. vm_compute. reflexivity. Qed.

(* ================================================================== *)
(** * The properties on concrete data *)

(** C1 on [pets.csv]: the query "cat" with [top_k = 2]. *)
Lemma search_sorted_by_score_descending_on_pets :
  (forall a, Np.is_argsort a (stable_argsort a)) /\
  exists indices scores,
    outcome (search ascii_tokenize sample_stop_words stable_argsort
               pets_vectorizer pets_matrix "cat" 2) = Return (indices, scores) /\
    scores = map (fun i => nth i (similarities_of ascii_tokenize sample_stop_words
                                    pets_vectorizer pets_matrix "cat") 0%R) indices /\
    StronglySorted score_descends (combine indices scores) /\
    exists front,
      stable_argsort (similarities_of ascii_tokenize sample_stop_words
                        pets_vectorizer pets_matrix "cat") = (front ++ rev indices)%list.
Proof.
  split; [exact stable_argsort_ok |].
  exact (@search_sorted_by_score_descending ascii_tokenize sample_stop_words
           stable_argsort stable_argsort_ok pets_vectorizer pets_matrix "cat" 2%Z).
Defined.

(** C1 fails as stated: both documents of [pets.csv] score 1 for "cat",
    and [search] returns document 1 before document 0. *)
Lemma equal_scores_come_in_descending_position :
  create_tfidf_index ascii_tokenize sample_stop_words ["cat"; "cat"] =
    ([Call fit_transform_call], Return (pets_vectorizer, pets_matrix)) /\
  search ascii_tokenize sample_stop_words stable_argsort pets_vectorizer pets_matrix
    "cat" 2
  = ([Call transform_call; Call cosine_similarity_call; Call argsort_call],
     Return ([1; 0], [1%R; 1%R])) /\
  ~ ranked_with_ties (combine [1; 0] [1%R; 1%R]).
Proof.
  split; [exact pets_index |]. split; [apply pets_search; now left |].
  intros H. simpl in H. apply StronglySorted_inv in H. destruct H as [_ H].
  inversion H as [| ? ? [_ Htie] _]; subst.
  unfold tie_by_position in Htie. simpl in Htie. specialize (Htie eq_refl). lia.
Qed.

(** C2 on [pets.csv]: two documents, [top_k = 5]. *)
Lemma search_length_on_pets :
  (1 <= 5)%Z /\
  (exists indices scores,
     outcome (search ascii_tokenize sample_stop_words stable_argsort
                pets_vectorizer pets_matrix "cat" 5) = Return (indices, scores) /\
     Z.of_nat (length indices) = Z.min 5 (Z.of_nat (length ["cat"; "cat"])) /\
     length scores = length indices) /\
  (exists indices scores,
     outcome (search ascii_tokenize sample_stop_words stable_argsort
                pets_vectorizer pets_matrix "cat"
                (Z.min 5 (Z.of_nat (length ["cat"; "cat"])))) = Return (indices, scores) /\
     Z.of_nat (length indices) = Z.min 5 (Z.of_nat (length ["cat"; "cat"])) /\
     length scores = length indices).
Proof.
  split; [lia |].
  apply (@search_length_is_min_top_k_document_count ascii_tokenize sample_stop_words
           stable_argsort stable_argsort_ok ["cat"; "cat"] pets_vectorizer pets_matrix
           "cat" 5%Z).
  - rewrite pets_index. reflexivity.
  - lia.
Defined.

Lemma pets_index_of_frame :
  outcome (create_tfidf_index ascii_tokenize sample_stop_words (documents_of pets "text"))
  = Return (pets_vectorizer, pets_matrix).
Proof. rewrite pets_documents, pets_index. reflexivity. Qed.






(** C5 on [pets.csv]. *)
Lemma idf_on_pets :
  idf_ pets_vectorizer =
    map (fun t =>
           (ln ((1 + INR (length ["cat"; "cat"]))
                / (1 + INR (document_frequency t
                              (map (analyze ascii_tokenize sample_stop_words)
                                   ["cat"; "cat"])))) + 1)%R)
        (vocabulary_ pets_vectorizer) /\
  Forall (fun w => (0 < w)%R) (idf_ pets_vectorizer) /\
  (forall N df, df <= N -> (0 < idf_weight N df)%R) /\
  (forall N, (0 < idf_weight N N)%R /\ (0 < idf_weight N 0)%R).
Proof.
  apply (@idf_is_smoothed_and_positive ascii_tokenize sample_stop_words
           ["cat"; "cat"] pets_vectorizer pets_matrix).
  rewrite pets_index. reflexivity.
Defined.

(** C6 fails as stated: with [top_k = 0] and a query of three spaces,
    [main] reports the invalid [top_k], not the empty query; and [search]
    itself checks neither argument: called with [top_k = 0] it returns both
    documents, called with the blank query it returns a result too. *)
Lemma blank_query_with_top_k_zero_reports_top_k :
  Py.strip (query (pets_args "   " 0)) = EmptyString /\
  failure_of (main ascii_tokenize sample_stop_words stable_argsort pets_fs
                (pets_args "   " 0)) = Some InvalidTopKError /\
  failure_of (main ascii_tokenize sample_stop_words stable_argsort pets_fs
                (pets_args "   " 0)) <> Some EmptyQueryError /\
  search ascii_tokenize sample_stop_words stable_argsort pets_vectorizer pets_matrix
    "cat" 0
  = ([Call transform_call; Call cosine_similarity_call; Call argsort_call],
     Return ([1; 0], [1%R; 1%R])) /\
  failure_of (search ascii_tokenize sample_stop_words stable_argsort
                pets_vectorizer pets_matrix "   " 2) = None.
Proof.
  split; [reflexivity |]. split; [reflexivity |]. split; [discriminate |].
  split; [apply pets_search; now right |].
  rewrite (search_returns ascii_tokenize sample_stop_words stable_argsort stable_argsort_ok).
  reflexivity.
Qed.

(** C7 on [pets.csv]: the query "dog". *)
Lemma out_of_vocabulary_query_on_pets :
  (forall t, In t (analyze ascii_tokenize sample_stop_words "dog") ->
             ~ In t (vocabulary_ pets_vectorizer)) /\
  (exists indices scores,
     search ascii_tokenize sample_stop_words stable_argsort pets_vectorizer pets_matrix
       "dog" 2 =
       ([Call transform_call; Call cosine_similarity_call; Call argsort_call],
        Return (indices, scores)) /\
     Forall (fun s => s = 0%R) scores) /\
  Forall (fun s => s = 0%R)
    (similarities_of ascii_tokenize sample_stop_words pets_vectorizer pets_matrix "dog") /\
  (forall args df,
     query args = "dog" ->
     (1 <= arg_top_k args)%Z ->
     Py.truthy (Py.strip (query args)) = true ->
     outcome (load_dataset pets_fs (csv_file args) (text_column args)) = Return df ->
     outcome (create_tfidf_index ascii_tokenize sample_stop_words
                (documents_of df (text_column args)))
       = Return (pets_vectorizer, pets_matrix) ->
     outcome (main ascii_tokenize sample_stop_words stable_argsort pets_fs args) = Exit 0).
Proof.
  assert (H : forall t, In t (analyze ascii_tokenize sample_stop_words "dog") ->
                        ~ In t (vocabulary_ pets_vectorizer)).
  { intros t Ht Hv. vm_compute in Ht. simpl in Hv.
    destruct Ht as [<- | []]. destruct Hv as [E | []]. discriminate. }
  split; [exact H |].
  exact (@out_of_vocabulary_query_scores_zero ascii_tokenize sample_stop_words
           stable_argsort pets_fs stable_argsort_ok pets_vectorizer pets_matrix
           "dog" 2%Z H).
Defined.

(** C8 fails as stated: zero documents fail with the empty-vocabulary
    error, the same one a corpus of stop words gets; a file with a header
    line and no row takes [main] there. *)
Lemma zero_documents_fail_as_empty_vocabulary :
  create_tfidf_index ascii_tokenize sample_stop_words []
  = create_tfidf_index ascii_tokenize sample_stop_words ["the"; "of the"] /\
  failure_of (create_tfidf_index ascii_tokenize sample_stop_words [])
  = Some EmptyVocabularyError /\
  failure_of (create_tfidf_index ascii_tokenize sample_stop_words [])
  <> Some EmptyCorpusError /\
  documents_of header_only "text" = [] /\
  main ascii_tokenize sample_stop_words stable_argsort pets_fs header_args
  = ([Stdout [Lit "Loading dataset from "; Lit "header.csv"; Lit "..."];
      Call pd_read_csv;
      Stdout [Lit "Loaded "; Int 0; Lit " documents"; Lit newline];
      Stdout [Lit "Building TF-IDF index..."];
      Call fit_transform_call;
      Stderr [Lit "Error creating TF-IDF index: "; Lit empty_vocabulary_message]],
     Exit 1).
Proof.
  split; [vm_compute; reflexivity |]. split; [reflexivity |].
  split; [discriminate |]. split; [reflexivity |]. vm_compute. reflexivity.
Qed.

(** C10 on [pets.csv]: the query "cat" with [top_k = 2]. *)
Lemma first_score_is_maximum_on_pets :
  exists indices first rest,
    outcome (search ascii_tokenize sample_stop_words stable_argsort
               pets_vectorizer pets_matrix (query (pets_args "cat" 2))
               (Z.min (arg_top_k (pets_args "cat" 2)) (Z.of_nat (length (rows pets)))))
      = Return (indices, first :: rest) /\
    In first (similarities_of ascii_tokenize sample_stop_words pets_vectorizer
                pets_matrix (query (pets_args "cat" 2))) /\
    (forall s, In s (similarities_of ascii_tokenize sample_stop_words pets_vectorizer
                       pets_matrix (query (pets_args "cat" 2))) -> (s <= first)%R) /\
    (outcome (main ascii_tokenize sample_stop_words stable_argsort pets_fs
                (pets_args "cat" 2)) = Exit 0 <->
     Forall (fun s => s = 0%R)
       (similarities_of ascii_tokenize sample_stop_words pets_vectorizer pets_matrix
          (query (pets_args "cat" 2)))).
Proof.
  apply (@first_score_is_maximum_similarity ascii_tokenize sample_stop_words
           stable_argsort pets_fs stable_argsort_ok (pets_args "cat" 2)
           pets pets_vectorizer pets_matrix).
  - simpl. lia.
  - reflexivity.
  - reflexivity.
  - exact pets_index_of_frame.
Defined.

(** X1 on [pets.csv]. *)
Lemma main_returns_or_exits_on_pets :
  (forall a, Np.is_argsort a (stable_argsort a)) /\
  never_raises (main ascii_tokenize sample_stop_words stable_argsort pets_fs
                  (pets_args "cat" 2)).
Proof.
  split; [exact stable_argsort_ok |].
  exact (@main_returns_or_exits ascii_tokenize sample_stop_words stable_argsort
           pets_fs stable_argsort_ok (pets_args "cat" 2)).
Defined.

(** X2 on [pets.csv]: [top_k = -1] leaves one of the two documents. *)
Lemma search_accepts_top_k_below_one_on_pets :
  (-1 <= 0)%Z /\
  exists indices scores,
    outcome (search ascii_tokenize sample_stop_words stable_argsort
               pets_vectorizer pets_matrix "cat" (-1)) = Return (indices, scores) /\
    Z.of_nat (length indices) = Z.max 0 (Z.of_nat (length pets_matrix) + -1) /\
    length scores = length indices.
Proof.
  split; [lia |].
  apply (@search_accepts_top_k_below_one ascii_tokenize sample_stop_words
           stable_argsort stable_argsort_ok pets_vectorizer pets_matrix "cat" (-1)%Z).
  lia.
Defined.

Lemma reversing_argsort_tie (x : R) : reversing_argsort [x; x] = [1; 0].
Proof.
  unfold reversing_argsort. cbn [length seq isort insert nth].
  rewrite Rltb_irrefl. reflexivity.
Qed.

(** With [reversing_argsort] the two documents of [pets.csv] come back in
    the other order, with the same scores. *)
Example pets_search_reversing :
  search ascii_tokenize sample_stop_words reversing_argsort pets_vectorizer pets_matrix
    "cat" 2
  = ([Call transform_call; Call cosine_similarity_call; Call argsort_call],
     Return ([0; 1], [1%R; 1%R])).
Proof.
  rewrite (search_returns ascii_tokenize sample_stop_words reversing_argsort
             reversing_argsort_ok).
  rewrite pets_similarities, reversing_argsort_tie. reflexivity.
Qed.

(** X3 on [pets.csv], for the two instances of [argsort]. *)
Lemma scores_do_not_depend_on_argsort_on_pets :
  exists indices1 indices2 scores,
    outcome (search ascii_tokenize sample_stop_words stable_argsort
               pets_vectorizer pets_matrix "cat" 2) = Return (indices1, scores) /\
    outcome (search ascii_tokenize sample_stop_words reversing_argsort
               pets_vectorizer pets_matrix "cat" 2) = Return (indices2, scores).
Proof.
  exact (@scores_do_not_depend_on_argsort ascii_tokenize sample_stop_words
           stable_argsort reversing_argsort pets_vectorizer pets_matrix "cat" 2%Z
           stable_argsort_ok reversing_argsort_ok).
Defined.

(** X4 on [renamed.csv], whose column [owner] has a missing cell. *)
Lemma load_dataset_fills_missing_text_on_renamed :
  pets_fs "renamed.csv" = inr pets_renamed /\
  In "owner" (columns pets_renamed) /\
  rectangular pets_renamed /\
  exists loaded,
    outcome (load_dataset pets_fs "renamed.csv" "owner") = Return loaded /\
    columns loaded = columns pets_renamed /\
    length (rows loaded) = length (rows pets_renamed) /\
    rectangular loaded /\
    null_count (column loaded "owner") = 0 /\
    documents_of loaded "owner" = map filled_text (column pets_renamed "owner") /\
    (forall other, other <> "owner" -> column loaded other = column pets_renamed other).
Proof.
  assert (H1 : pets_fs "renamed.csv" = inr pets_renamed) by reflexivity.
  assert (H2 : In "owner" (columns pets_renamed)) by (simpl; tauto).
  assert (H3 : rectangular pets_renamed) by (repeat constructor).
  split; [exact H1 |]. split; [exact H2 |]. split; [exact H3 |].
  exact (@load_dataset_fills_missing_text pets_fs "renamed.csv" "owner" pets_renamed
           H1 H2 H3).
Defined.

(** X7 on [pets.csv]: [top_k = 5] over two documents. *)
Lemma clamping_top_k_changes_nothing_on_pets :
  (forall a, length (stable_argsort a) = length a) /\
  (1 <= 5)%Z /\
  search ascii_tokenize sample_stop_words stable_argsort pets_vectorizer pets_matrix
    "cat" (Z.min 5 (Z.of_nat (length pets_matrix)))
  = search ascii_tokenize sample_stop_words stable_argsort pets_vectorizer pets_matrix
      "cat" 5.
Proof.
  assert (H : forall a, length (stable_argsort a) = length a)
    by (intros a; apply (is_argsort_length (stable_argsort_ok a))).
  split; [exact H |]. split; [lia |].
  apply (@clamping_top_k_changes_nothing ascii_tokenize sample_stop_words
           stable_argsort pets_vectorizer pets_matrix "cat" 5%Z H).
  lia.
Defined.

Lemma pets_positions_in_range : Forall (fun i => i < length (rows pets)) [1; 0].
Proof. repeat constructor. Qed.

(** X10 on [pets.csv]: the two results of the query "cat". *)
Lemma print_results_ranks_results_in_order_on_pets :
  outcome (print_results pets [1; 0] [1%R; 1%R] "text") = Return tt /\
  Forall is_stdout (trace (print_results pets [1; 0] [1%R; 1%R] "text")) /\
  filter is_rank_line (trace (print_results pets [1; 0] [1%R; 1%R] "text"))
  = map (fun item => rank_line (fst item) (snd item))
        (combine (seq 1 (length [1; 0])) [1%R; 1%R]) /\
  length (filter is_rank_line (trace (print_results pets [1; 0] [1%R; 1%R] "text")))
  = Nat.min (length [1; 0]) (length [1%R; 1%R]).
Proof.
  exact (@print_results_ranks_results_in_order pets [1; 0] [1%R; 1%R] "text"
           pets_positions_in_range).
Defined.

(** X11 on [pets.csv]. *)
Lemma print_results_previews_on_pets :
  filter is_preview_line (trace (print_results pets [1; 0] [1%R; 1%R] "text"))
  = map (fun item => preview_line pets "text" (fst item))
        (combine [1; 0] [1%R; 1%R]) /\
  (forall text,
     String.length (text_preview text) <= 203 /\
     (String.length text <= 200 -> text_preview text = text) /\
     (200 < String.length text ->
      text_preview text = (Py.prefix 200 text ++ "...")%string /\
      String.length (text_preview text) = 203)).
Proof.
  exact (@print_results_previews_at_most_203_characters pets [1; 0] [1%R; 1%R] "text"
           pets_positions_in_range).
Defined.

Lemma pets_similarities_not_zero :
  ~ Forall (fun s => s = 0%R)
      (similarities_of ascii_tokenize sample_stop_words pets_vectorizer pets_matrix
         (query (pets_args "cat" 2))).
Proof.
  simpl query. rewrite pets_similarities. intros H. inversion H; subst. lra.
Qed.

(** X12 on [pets.csv]: the query "cat" with [top_k = 2]. *)
Lemma main_prints_the_top_results_on_pets :
  outcome (main ascii_tokenize sample_stop_words stable_argsort pets_fs
             (pets_args "cat" 2)) = Return tt /\
  exists indices scores,
    outcome (search ascii_tokenize sample_stop_words stable_argsort
               pets_vectorizer pets_matrix (query (pets_args "cat" 2))
               (Z.min (arg_top_k (pets_args "cat" 2)) (Z.of_nat (length (rows pets)))))
      = Return (indices, scores) /\
    filter is_rank_line
      (trace (main ascii_tokenize sample_stop_words stable_argsort pets_fs
                (pets_args "cat" 2)))
      = map (fun item => rank_line (fst item) (snd item))
            (combine (seq 1 (length indices)) scores) /\
    Z.of_nat (length (filter is_rank_line
                        (trace (main ascii_tokenize sample_stop_words stable_argsort
                                  pets_fs (pets_args "cat" 2)))))
      = Z.min (arg_top_k (pets_args "cat" 2)) (Z.of_nat (length (rows pets))) /\
    StronglySorted (fun x y => (y <= x)%R) scores.
Proof.
  apply (@main_prints_the_top_results ascii_tokenize sample_stop_words
           stable_argsort pets_fs stable_argsort_ok (pets_args "cat" 2)
           pets pets_vectorizer pets_matrix).
  - simpl. lia.
  - reflexivity.
  - reflexivity.
  - exact pets_index_of_frame.
  - exact pets_similarities_not_zero.
Defined.
